(** * Assignment portal: assignment lifecycle, submissions, review and analytics

    A shallow embedding of the two Express controllers
    [assignmentController.js] and [submissionController.js] together with
    the two Mongoose schemas (Assignment, Submission) they operate on.

    - A Mongo collection is a finite map from [_id] to document.
    - A handler is a function from the request (authenticated user, route
      parameter, body, clock) and the database to the response it sends and
      the database it leaves behind.
    - [res.status(c).json({...})] is [Sent]; an exception that [asyncHandler]
      forwards to the error middleware (which is not part of the modelled
      sources) is [Thrown].
    - The [data] of a response is the document, with its [_id], or the list
      of documents it is built from; the fields that [populate] joins in
      from the User collection, and the pagination block of the listing,
      are not modelled.
    - Strings are sequences of characters up to U+00FF; the numbers of a
      JSON body are exact rationals, and the arithmetic of the analytics is
      exact. *)

From Stdlib Require Import ZArith NArith QArith Qround String Ascii List Bool Lia.
From stdpp Require Import base option list gmap fin_maps strings sorting relations.

Local Open Scope string_scope.

(** ** Values *)

(** An [ObjectId] is an opaque identifier ([N]); a [Date] is its time value,
    milliseconds since the epoch ([Z]).  A number that arrives in a JSON body
    is the rational it denotes ([Q]); counters are integers ([Z]). *)

(** A value found under a key of [req.body]: [JUndefined] is an absent key,
    [JOther] stands for arrays and objects ([typeof] gives ['object']).
    Only [grade], whose type the controller tests, is taken at this
    generality; the text fields of a body are strings when present. *)
Inductive jsval : Type :=
| JUndefined
| JNull
| JBool (b : bool)
| JNum (x : Q)
| JStr (s : string)
| JOther.

(** A text field of the body: [None] is an absent key.  JavaScript
    truthiness of such a field: absent and the empty string are falsy. *)
Definition truthy (v : option string) : bool :=
  match v with
  | Some s => negb (String.eqb s "")
  | None => false
  end.

(** [req.user], as set by the authentication middleware. *)
Record User : Type := mkUser { userId : N; role : string }.

(** ** Responses *)

Inductive Response (A : Type) : Type :=
| Sent (code : Z) (success : bool) (message : option string) (data : option A)
| Thrown.
Arguments Sent {A} code success message data.
Arguments Thrown {A}.

(** [res.status(code).json({ success: false, message })] *)
Definition reject {A} (code : Z) (msg : string) : Response A :=
  Sent code false (Some msg) None.

(** ** The Assignment schema *)

Inductive Status : Type := Draft | Published | Completed.

Global Instance Status_eq_dec : EqDecision Status.
Proof. solve_decision. Defined.

(** The string stored for a status. *)
Definition status_name (s : Status) : string :=
  match s with
  | Draft => "Draft"
  | Published => "Published"
  | Completed => "Completed"
  end.

(** [['Draft', 'Published', 'Completed'].includes(v)], returning the member
    that was found. *)
Definition status_of_string (v : string) : option Status :=
  if String.eqb v "Draft" then Some Draft
  else if String.eqb v "Published" then Some Published
  else if String.eqb v "Completed" then Some Completed
  else None.

(** The paths of the schema.  [status] is typed by the [enum] of the path;
    [updatedAt], which the [timestamps] option maintains and no controller
    reads, is left out. *)
Record Assignment : Type := mkAssignment {
  title : string;
  description : string;
  dueDate : Z;
  status : Status;
  createdBy : N;
  createdAt : Z
}.

(** ** The Submission schema *)

(** The paths of the schema; an unset [grade] or [feedback] is [None]. *)
Record Submission : Type := mkSubmission {
  assignmentId : N;
  studentId : N;
  answer : string;
  submittedAt : Z;
  reviewed : bool;
  grade : option Q;
  feedback : option string
}.

(** ** The database *)

Record DB : Type := mkDB {
  assignments : gmap N Assignment;
  submissions : gmap N Submission
}.

Definition set_assignments (m : gmap N Assignment) (db : DB) : DB :=
  mkDB m (submissions db).

Definition set_submissions (m : gmap N Submission) (db : DB) : DB :=
  mkDB (assignments db) m.

(** [Model.find(filter)]: the documents that satisfy the filter, with their
    ids, in the collection's enumeration order. *)
Definition find {A} (p : N * A -> bool) (m : gmap N A) : list (N * A) :=
  List.filter p (map_to_list m).

(** [Model.findOne(filter)] *)
Definition findOne {A} (p : N * A -> bool) (m : gmap N A) : option (N * A) :=
  head (find p m).

(** The [_id] Mongo gives a new document: one that is not in the collection. *)
Definition new_id {A} (m : gmap N A) : N := fresh (dom m).

(** ** assignmentController.js *)

(** [req.query] of the listing route.  [query_page] and [query_limit] hold
    what [parseInt(_, 10)] returned, [None] standing for [NaN]. *)
Record ListQuery : Type := mkListQuery {
  query_status : option string;
  query_page : option Z;
  query_limit : option Z
}.

(** [{ title, description, dueDate } = req.body] *)
Record AssignmentBody : Type := mkAssignmentBody {
  body_title : option string;
  body_description : option string;
  body_dueDate : option string
}.

(** [n || d] for the result of [parseInt]: [NaN] and [0] are falsy. *)
Definition or_default (n : option Z) (d : Z) : Z :=
  match n with
  | Some 0%Z | None => d
  | Some v => v
  end.

(** The Mongo filter object built by [getAssignments]; an unset key does not
    constrain the query. *)
Record AssignmentFilter : Type := mkFilter {
  filter_status : option Status;
  filter_createdBy : option N
}.

Definition matches (f : AssignmentFilter) (d : N * Assignment) : bool :=
  match filter_status f with
  | Some s => bool_decide (status d.2 = s)
  | None => true
  end &&
  match filter_createdBy f with
  | Some u => (createdBy d.2 =? u)%N
  | None => true
  end.

(** Role-based filtering (lines 17-29 of the controller). *)
Definition list_filter (user : User) (q : ListQuery) : AssignmentFilter :=
  if String.eqb (role user) "student" then
    mkFilter (Some Published) None
  else if String.eqb (role user) "teacher" then
    match q.(query_status) with
    | Some v =>
        if negb (String.eqb v "") then
          match status_of_string v with
          | Some s => mkFilter (Some s) (Some (userId user))
          | None => mkFilter None (Some (userId user))
          end
        else mkFilter None (Some (userId user))
    | None => mkFilter None (Some (userId user))
    end
  else mkFilter None None.

(** [.sort({ createdAt: -1 })] *)
Definition newest_first (x y : N * Assignment) : Prop :=
  (createdAt y.2 <= createdAt x.2)%Z.

Global Instance newest_first_dec : RelDecision newest_first.
Proof. intros x y. unfold newest_first. apply _. Defined.

(** [getAssignments].  Only the [data] array of the response is modelled.
    The server refuses a negative [skip]; the driver turns a negative
    [limit] into its absolute value. *)
Definition getAssignments (user : User) (q : ListQuery) (db : DB)
  : Response (list (N * Assignment)) * DB :=
  let page := or_default (query_page q) 1 in
  let limit := or_default (query_limit q) 10 in
  let startIndex := ((page - 1) * limit)%Z in
  let filter := list_filter user q in
  if (startIndex <? 0)%Z then (Thrown, db)
  else
    let found := merge_sort newest_first (find (matches filter) (assignments db)) in
    let data := take (Z.to_nat (Z.abs limit)) (drop (Z.to_nat startIndex) found) in
    (Sent 200 true None (Some data), db).

(** A body field that the handler acts on: present and truthy. *)
Definition supplied (v : option string) : option string :=
  if truthy v then v else None.

Definition with_title (t : string) (a : Assignment) : Assignment :=
  mkAssignment t (description a) (dueDate a) (status a) (createdBy a) (createdAt a).

Definition with_description (d : string) (a : Assignment) : Assignment :=
  mkAssignment (title a) d (dueDate a) (status a) (createdBy a) (createdAt a).

Definition with_dueDate (t : Z) (a : Assignment) : Assignment :=
  mkAssignment (title a) (description a) t (status a) (createdBy a) (createdAt a).

Definition with_status (s : Status) (a : Assignment) : Assignment :=
  mkAssignment (title a) (description a) (dueDate a) s (createdBy a) (createdAt a).

(** [validTransitions] of [updateAssignmentStatus]. *)
Definition validTransitions (from : Status) : list Status :=
  match from with
  | Draft => [Published]
  | Published => [Completed]
  | Completed => []
  end.

(** [validTransitions[from].includes(to)] *)
Definition transition_allowed (from to : Status) : bool :=
  bool_decide (to ∈ validTransitions from).

Section AssignmentController.

(** [new Date(s)] on a string: the accepted formats are the engine's;
    [None] is an Invalid Date, which the schema's Date path refuses. *)
Variable newDate : string -> option Z.

(** [createAssignment]; [now] is the clock read by the [createdAt] default. *)
Definition createAssignment (user : User) (body : AssignmentBody) (now : Z) (db : DB)
  : Response (N * Assignment) * DB :=
  match supplied (body_title body), supplied (body_description body),
        supplied (body_dueDate body) with
  | Some t, Some d, Some due =>
      match newDate due with
      | Some due' =>
          let id := new_id (assignments db) in
          let assignment := mkAssignment t d due' Draft (userId user) now in
          (Sent 201 true (Some "Assignment created successfully") (Some (id, assignment)),
           set_assignments (<[id := assignment]> (assignments db)) db)
      | None => (Thrown, db)
      end
  | _, _, _ => (reject 400 "Please provide title, description, and due date", db)
  end.

(** [updateAssignment] *)
Definition updateAssignment (user : User) (id : N) (body : AssignmentBody) (db : DB)
  : Response (N * Assignment) * DB :=
  match assignments db !! id with
  | None => (reject 404 "Assignment not found", db)
  | Some assignment =>
      if negb (createdBy assignment =? userId user)%N then
        (reject 403 "Not authorized to update this assignment", db)
      else if negb (bool_decide (status assignment = Draft)) then
        (reject 400 "Can only edit assignments in Draft status", db)
      else
        let assignment :=
          match supplied (body_title body) with
          | Some t => with_title t assignment
          | None => assignment
          end in
        let assignment :=
          match supplied (body_description body) with
          | Some d => with_description d assignment
          | None => assignment
          end in
        match supplied (body_dueDate body) with
        | Some due =>
            match newDate due with
            | Some due' =>
                let assignment := with_dueDate due' assignment in
                (Sent 200 true (Some "Assignment updated successfully") (Some (id, assignment)),
                 set_assignments (<[id := assignment]> (assignments db)) db)
            | None => (Thrown, db)
            end
        | None =>
            (Sent 200 true (Some "Assignment updated successfully") (Some (id, assignment)),
             set_assignments (<[id := assignment]> (assignments db)) db)
        end
  end.

End AssignmentController.

(** [deleteAssignment] *)
Definition deleteAssignment (user : User) (id : N) (db : DB) : Response unit * DB :=
  match assignments db !! id with
  | None => (reject 404 "Assignment not found", db)
  | Some assignment =>
      if negb (createdBy assignment =? userId user)%N then
        (reject 403 "Not authorized to delete this assignment", db)
      else if negb (bool_decide (status assignment = Draft)) then
        (reject 400 "Can only delete assignments in Draft status", db)
      else
        (Sent 200 true (Some "Assignment deleted successfully") None,
         set_assignments (delete id (assignments db)) db)
  end.

(** [updateAssignmentStatus]; [target] is [req.body.status]. *)
Definition updateAssignmentStatus (user : User) (id : N) (target : option string) (db : DB)
  : Response (N * Assignment) * DB :=
  let invalid := reject 400 "Please provide a valid status (Draft, Published, Completed)" in
  match supplied target with
  | None => (invalid, db)
  | Some v =>
      match status_of_string v with
      | None => (invalid, db)
      | Some to =>
          match assignments db !! id with
          | None => (reject 404 "Assignment not found", db)
          | Some assignment =>
              if negb (createdBy assignment =? userId user)%N then
                (reject 403 "Not authorized to update this assignment", db)
              else if negb (transition_allowed (status assignment) to) then
                (reject 400 ("Cannot change status from "
                             +:+ status_name (status assignment) +:+ " to " +:+ v), db)
              else
                let assignment := with_status to assignment in
                (Sent 200 true (Some "Assignment status updated successfully")
                   (Some (id, assignment)),
                 set_assignments (<[id := assignment]> (assignments db)) db)
          end
      end
  end.

(** [getAssignment] *)
Definition getAssignment (user : User) (id : N) (db : DB) : Response (N * Assignment) * DB :=
  match assignments db !! id with
  | None => (reject 404 "Assignment not found", db)
  | Some assignment =>
      if String.eqb (role user) "student" && negb (bool_decide (status assignment = Published)) then
        (reject 403 "Assignment not available", db)
      else if String.eqb (role user) "teacher" && negb (createdBy assignment =? userId user)%N then
        (reject 403 "Not authorized to view this assignment", db)
      else (Sent 200 true None (Some (id, assignment)), db)
  end.

(** ** submissionController.js *)

(** White space as [String.prototype.trim] sees it, among the characters
    up to U+00FF: TAB, LF, VT, FF, CR, SPACE and NBSP. *)
Definition js_space (c : ascii) : bool :=
  let n := N_of_ascii c in
  ((9 <=? n)%N && (n <=? 13)%N) || (n =? 32)%N || (n =? 160)%N.

Fixpoint trim_start (s : string) : string :=
  match s with
  | String c s' => if js_space c then trim_start s' else s
  | EmptyString => EmptyString
  end.

(** The [trim: true] setter of a String path. *)
Definition trim (s : string) : string :=
  String.rev (trim_start (String.rev (trim_start s))).

(** [{ assignmentId, answer } = req.body] *)
Record SubmissionBody : Type := mkSubmissionBody {
  body_assignmentId : option N;
  body_answer : option string
}.

(** [{ grade, feedback } = req.body] *)
Record ReviewBody : Type := mkReviewBody {
  body_grade : jsval;
  body_feedback : option string
}.

Definition same_pair (aid sid : N) (d : N * Submission) : bool :=
  (assignmentId d.2 =? aid)%N && (studentId d.2 =? sid)%N.

(** [Submission.create({ assignmentId, studentId, answer })] under the
    schema: [answer] is trimmed and then required (an empty string fails a
    required String path), the pair (assignmentId, studentId) carries a
    unique index, [submittedAt] defaults to the clock and [reviewed] to
    false, [grade] and [feedback] have no default.  [None] is the rejected
    promise. *)
Definition Submission_create (aid sid : N) (ans : string) (now : Z)
    (m : gmap N Submission) : option (N * Submission * gmap N Submission) :=
  let ans := trim ans in
  if String.eqb ans "" then None
  else if existsb (same_pair aid sid) (map_to_list m) then None
  else
    let id := new_id m in
    let submission := mkSubmission aid sid ans now false None None in
    Some (id, submission, <[id := submission]> m).

(** [createSubmission]; [now] is [new Date()]. *)
Definition createSubmission (user : User) (body : SubmissionBody) (now : Z) (db : DB)
  : Response (N * Submission) * DB :=
  match body_assignmentId body, supplied (body_answer body) with
  | Some aid, Some ans =>
      match assignments db !! aid with
      | None => (reject 404 "Assignment not found", db)
      | Some assignment =>
          if negb (bool_decide (status assignment = Published)) then
            (reject 400 "Assignment is not available for submission", db)
          else if (dueDate assignment <? now)%Z then
            (reject 400 "Assignment due date has passed. Submissions are no longer accepted.", db)
          else
            match findOne (same_pair aid (userId user)) (submissions db) with
            | Some existingSubmission =>
                (reject 400 "You have already submitted this assignment", db)
            | None =>
                match Submission_create aid (userId user) ans now (submissions db) with
                | Some (id, submission, m) =>
                    (Sent 201 true (Some "Assignment submitted successfully")
                       (Some (id, submission)),
                     set_submissions m db)
                | None => (Thrown, db)
                end
            end
      end
  | _, _ => (reject 400 "Please provide assignment ID and answer", db)
  end.

(** [.sort({ submittedAt: -1 })] *)
Definition latest_first (x y : N * Submission) : Prop :=
  (submittedAt y.2 <= submittedAt x.2)%Z.

Global Instance latest_first_dec : RelDecision latest_first.
Proof. intros x y. unfold latest_first. apply _. Defined.

(** [getSubmissionsByAssignment]; the joined student name, e-mail and
    assignment title of the report are not modelled. *)
Definition getSubmissionsByAssignment (user : User) (aid : N) (db : DB)
  : Response (list (N * Submission)) * DB :=
  match assignments db !! aid with
  | None => (reject 404 "Assignment not found", db)
  | Some assignment =>
      if negb (createdBy assignment =? userId user)%N then
        (reject 403 "Not authorized to view submissions for this assignment", db)
      else
        let found := find (fun d => (assignmentId d.2 =? aid)%N) (submissions db) in
        (Sent 200 true None (Some (merge_sort latest_first found)), db)
  end.

(** [getMySubmissions] *)
Definition getMySubmissions (user : User) (db : DB)
  : Response (list (N * Submission)) * DB :=
  let found := find (fun d => (studentId d.2 =? userId user)%N) (submissions db) in
  (Sent 200 true None (Some (merge_sort latest_first found)), db).

Definition with_grade (g : Q) (s : Submission) : Submission :=
  mkSubmission (assignmentId s) (studentId s) (answer s) (submittedAt s)
    (reviewed s) (Some g) (feedback s).

Definition with_feedback (f : string) (s : Submission) : Submission :=
  mkSubmission (assignmentId s) (studentId s) (answer s) (submittedAt s)
    (reviewed s) (grade s) (Some f).

Definition with_reviewed (r : bool) (s : Submission) : Submission :=
  mkSubmission (assignmentId s) (studentId s) (answer s) (submittedAt s)
    r (grade s) (feedback s).

(** Lines 167-176: the grade of the body against the document; [None] is
    the early return with status 400. *)
Definition validate_grade (g : jsval) (s : Submission) : option Submission :=
  match g with
  | JUndefined => Some s
  | JNum x =>
      if negb (Qle_bool 0 x) || negb (Qle_bool x 100) then None
      else Some (with_grade x s)
  | _ => None
  end.

(** [reviewSubmission].  [populate] replaces [assignmentId] by the
    assignment document, or by null when there is none, in which case
    reading [createdBy] throws.  [feedback] passes the [trim] setter.  The
    User collection is not modelled: the controllers never delete an
    account, so the populated [studentId] is a document. *)
Definition reviewSubmission (user : User) (id : N) (body : ReviewBody) (db : DB)
  : Response (N * Submission) * DB :=
  match submissions db !! id with
  | None => (reject 404 "Submission not found", db)
  | Some submission =>
      match assignments db !! assignmentId submission with
      | None => (Thrown, db)
      | Some assignment =>
          if negb (createdBy assignment =? userId user)%N then
            (reject 403 "Not authorized to review this submission", db)
          else
            match validate_grade (body_grade body) submission with
            | None => (reject 400 "Grade must be a number between 0 and 100", db)
            | Some submission =>
                let submission :=
                  match body_feedback body with
                  | Some f => with_feedback (trim f) submission
                  | None => submission
                  end in
                let submission := with_reviewed true submission in
                (Sent 200 true (Some "Submission reviewed successfully")
                   (Some (id, submission)),
                 set_submissions (<[id := submission]> (submissions db)) db)
            end
      end
  end.

(** *** Analytics *)

(** One document of the [$group] stage. *)
Record Stat : Type := mkStat {
  stat_id : N;
  stat_totalSubmissions : Z;
  stat_reviewedSubmissions : Z;
  stat_averageGrade : option Q
}.

(** One element of [assignmentAnalytics]. *)
Record Row : Type := mkRow {
  row_assignmentId : N;
  row_title : string;
  row_status : Status;
  row_dueDate : Z;
  totalSubmissions : Z;
  reviewedSubmissions : Z;
  pendingReviews : Z;
  averageGrade : option Q
}.

Record Overview : Type := mkOverview {
  totalAssignments : Z;
  overview_totalSubmissions : Z;
  totalReviewed : Z;
  overview_pendingReviews : Z
}.

Record Report : Type := mkReport {
  overview : Overview;
  assignmentAnalytics : list Row
}.

(** [$sum] and [reduce((sum, x) => sum + x, 0)] *)
Definition sumZ (l : list Z) : Z := fold_right Z.add 0%Z l.

Definition sumQ (l : list Q) : Q := fold_right Qplus 0%Q l.

(** [$avg]: the mean of the numeric operands, null when there is none. *)
Definition avg (l : list (option Q)) : option Q :=
  match omap id l with
  | [] => None
  | x :: xs => Some (sumQ (x :: xs) / inject_Z (Z.of_nat (length (x :: xs))))%Q
  end.

(** [{ $cond: [{ $eq: ['$reviewed', true] }, 1, 0] }] *)
Definition reviewed_count (d : Submission) : Z := if reviewed d then 1%Z else 0%Z.

(** [{ $cond: [{ $ne: ['$grade', null] }, '$grade', null] }] *)
Definition grade_operand (d : Submission) : option Q :=
  match grade d with
  | Some g => Some g
  | None => None
  end.

(** The [$group] stage over the matched documents: one [Stat] for each
    distinct [assignmentId]. *)
Definition group_by_assignment (docs : list Submission) : list Stat :=
  (fun k =>
     let members := List.filter (fun d => (assignmentId d =? k)%N) docs in
     mkStat k
       (sumZ ((fun _ => 1%Z) <$> members))
       (sumZ (reviewed_count <$> members))
       (avg (grade_operand <$> members)))
  <$> remove_dups (assignmentId <$> docs).

(** [Submission.aggregate([{ $match: ... }, { $group: ... }])] *)
Definition submissionStats (assignmentIds : list N) (m : gmap N Submission) : list Stat :=
  let matched :=
    find (fun d => bool_decide (assignmentId d.2 ∈ assignmentIds)) m in
  group_by_assignment (snd <$> matched).

(** [Math.round]: the nearest integer, ties towards positive infinity. *)
Definition Math_round (x : Q) : Z := Qfloor (x + (1 # 2)).

(** [avg ? Math.round(avg * 100) / 100 : null]; the number [0] is falsy. *)
Definition rounded_average (a : option Q) : option Q :=
  match a with
  | Some x =>
      if Qeq_bool x 0 then None
      else Some (inject_Z (Math_round (x * 100)) / 100)%Q
  | None => None
  end.

(** The callback of [assignments.map] in [getAnalytics]. *)
Definition analytics_row (stats : list Stat) (a : N * Assignment) : Row :=
  let '(total, rev, average) :=
    match List.find (fun stat => (stat_id stat =? a.1)%N) stats with
    | Some stat =>
        (stat_totalSubmissions stat, stat_reviewedSubmissions stat, stat_averageGrade stat)
    | None => (0%Z, 0%Z, None)
    end in
  mkRow a.1 (title a.2) (status a.2) (dueDate a.2)
    total rev (total - rev)%Z (rounded_average average).

(** [getAnalytics] *)
Definition getAnalytics (user : User) (db : DB) : Response Report * DB :=
  let owned := find (fun d => (createdBy d.2 =? userId user)%N) (assignments db) in
  let assignmentIds := fst <$> owned in
  let stats := submissionStats assignmentIds (submissions db) in
  let analytics := analytics_row stats <$> owned in
  let totalAssignments := Z.of_nat (length owned) in
  let totalSubmissions := sumZ (stat_totalSubmissions <$> stats) in
  let totalReviewed := sumZ (stat_reviewedSubmissions <$> stats) in
  (Sent 200 true None
     (Some (mkReport
              (mkOverview totalAssignments totalSubmissions totalReviewed
                 (totalSubmissions - totalReviewed)%Z)
              analytics)),
   db).

(** ** The server as a transition system *)

(** One request to one of the routes of the two controllers. *)
Inductive Request : Type :=
| GetAssignments (user : User) (q : ListQuery)
| CreateAssignment (user : User) (body : AssignmentBody) (now : Z)
| UpdateAssignment (user : User) (id : N) (body : AssignmentBody)
| DeleteAssignment (user : User) (id : N)
| UpdateAssignmentStatus (user : User) (id : N) (target : option string)
| GetAssignment (user : User) (id : N)
| CreateSubmission (user : User) (body : SubmissionBody) (now : Z)
| GetSubmissionsByAssignment (user : User) (aid : N)
| GetMySubmissions (user : User)
| ReviewSubmission (user : User) (id : N) (body : ReviewBody)
| GetAnalytics (user : User).

Section Server.

Variable newDate : string -> option Z.

(** The database a request leaves behind. *)
Definition serve (r : Request) (db : DB) : DB :=
  match r with
  | GetAssignments user q => (getAssignments user q db).2
  | CreateAssignment user body now => (createAssignment newDate user body now db).2
  | UpdateAssignment user id body => (updateAssignment newDate user id body db).2
  | DeleteAssignment user id => (deleteAssignment user id db).2
  | UpdateAssignmentStatus user id target => (updateAssignmentStatus user id target db).2
  | GetAssignment user id => (getAssignment user id db).2
  | CreateSubmission user body now => (createSubmission user body now db).2
  | GetSubmissionsByAssignment user aid => (getSubmissionsByAssignment user aid db).2
  | GetMySubmissions user => (getMySubmissions user db).2
  | ReviewSubmission user id body => (reviewSubmission user id body db).2
  | GetAnalytics user => (getAnalytics user db).2
  end.

Definition step (db db' : DB) : Prop := exists r, serve r db = db'.

End Server.

(** The unique index of the Submission schema as a property of the
    collection: at most one document for a pair (assignmentId, studentId). *)
Definition one_per_pair (m : gmap N Submission) : Prop :=
  forall i j s1 s2,
    m !! i = Some s1 -> m !! j = Some s2 ->
    assignmentId s1 = assignmentId s2 -> studentId s1 = studentId s2 -> i = j.

(** ** Vocabulary of the properties *)

(** The status of the assignment [id], if there is one. *)
Definition status_at (id : N) (db : DB) : option Status :=
  status <$> assignments db !! id.

(** The sentence of the specification read for every caller: a pair
    outside the table is answered with the transition message. *)
Definition every_bad_transition_is_invalid_state : Prop :=
  forall user id v to db a,
    assignments db !! id = Some a ->
    status_of_string v = Some to ->
    transition_allowed (status a) to = false ->
    (updateAssignmentStatus user id (Some v) db).1 =
      reject 400 ("Cannot change status from " +:+ status_name (status a)
                  +:+ " to " +:+ status_name to).

(** No document of the collection is for the pair. *)
Definition no_submission (aid sid : N) (m : gmap N Submission) : Prop :=
  forall i s, m !! i = Some s -> ~ (assignmentId s = aid /\ studentId s = sid).

(** A new document: the defaults of the schema around the given fields. *)
Definition fresh_submission (aid sid : N) (ans : string) (now : Z) : Submission :=
  mkSubmission aid sid (trim ans) now false None None.

(** What a review writes into a submission. *)
Definition reviewed_with (body : ReviewBody) (s : Submission) : Submission :=
  mkSubmission (assignmentId s) (studentId s) (answer s) (submittedAt s) true
    (match body_grade body with JNum x => Some x | _ => grade s end)
    (match body_feedback body with Some f => Some (trim f) | None => feedback s end).

(** The sentence of the specification read for every answer: with
    assignmentId and answer present and no submission of the pair, a
    submission against a Published assignment whose dueDate is in the
    future succeeds. *)
Definition every_present_answer_is_accepted : Prop :=
  forall user aid ans now db a,
    ans <> "" ->
    assignments db !! aid = Some a ->
    no_submission aid (userId user) (submissions db) ->
    status a = Published -> (now < dueDate a)%Z ->
    exists m d,
      (createSubmission user (mkSubmissionBody (Some aid) (Some ans)) now db).1
        = Sent 201 true m d.

(** What one request can do to the Submission collection: nothing, one new
    document under an unused id for a pair that had none, or one document
    reviewed in place. *)
Inductive submissions_step (m : gmap N Submission) : gmap N Submission -> Prop :=
| step_same : submissions_step m m
| step_new aid sid ans now :
    no_submission aid sid m -> m !! new_id m = None ->
    submissions_step m (<[new_id m := fresh_submission aid sid ans now]> m)
| step_review id s body :
    m !! id = Some s ->
    submissions_step m (<[id := reviewed_with body s]> m).

(** The request is a review of the submission [id]. *)
Definition is_review (r : Request) (id : N) : Prop :=
  match r with
  | ReviewSubmission _ id' _ => id' = id
  | _ => False
  end.

(** The sentence of the specification read for every request: once a pair
    has a submission, a further [createSubmission] of the pair is answered
    with the conflict message. *)
Definition every_repeated_create_is_conflict : Prop :=
  forall user body now db aid i s,
    body_assignmentId body = Some aid ->
    submissions db !! i = Some s ->
    assignmentId s = aid -> studentId s = userId user ->
    createSubmission user body now db
      = (reject 400 "You have already submitted this assignment", db).

(** A grade that the body supplies and that is not a number of [0, 100]. *)
Definition bad_grade (g : jsval) : Prop :=
  match g with
  | JUndefined => False
  | JNum x => (x < 0 \/ 100 < x)%Q
  | _ => True
  end.

(** The sentence of the specification read for every caller: a bad grade
    on an existing submission is answered with the grade message. *)
Definition every_bad_grade_is_validation_error : Prop :=
  forall user id body db s,
    submissions db !! id = Some s ->
    bad_grade (body_grade body) ->
    (reviewSubmission user id body db).1
      = reject 400 "Grade must be a number between 0 and 100".

(** The documents of one group. *)
Definition members (k : N) (docs : list Submission) : list Submission :=
  List.filter (fun d => (assignmentId d =? k)%N) docs.

(** The accumulators of the [$group] stage for the key [k]. *)
Definition stat_of (docs : list Submission) (k : N) : Stat :=
  mkStat k
    (sumZ ((fun _ => 1%Z) <$> members k docs))
    (sumZ (reviewed_count <$> members k docs))
    (avg (grade_operand <$> members k docs)).

(** The row of an assignment, computed from its own submissions. *)
Definition row_of (docs : list Submission) (a : N * Assignment) : Row :=
  let group := members a.1 docs in
  let total := sumZ ((fun _ => 1%Z) <$> group) in
  let rev := sumZ (reviewed_count <$> group) in
  mkRow a.1 (title a.2) (status a.2) (dueDate a.2) total rev (total - rev)%Z
    (rounded_average (avg (grade_operand <$> group))).

(** The teacher [uid] owns the assignment [id]. *)
Definition owns (uid : N) (db : DB) (id : N) : Prop :=
  exists a, assignments db !! id = Some a /\ createdBy a = uid.

(** The submissions to the assignment [id]. *)
Definition submitted_to (id : N) (db : DB) : list Submission :=
  snd <$> find (fun d => (assignmentId d.2 =? id)%N) (submissions db).

(** ** Example databases *)

(** A draft of teacher 1. *)
Definition draft_of_1 : DB :=
  mkDB {[ 0%N := mkAssignment "Essay" "Write it" 1000 Draft 1 5 ]} ∅.

(** Two assignments of teacher 1 (a draft and a published one) and a
    published one of teacher 2. *)
Definition three_assignments : DB :=
  mkDB (<[ 0%N := mkAssignment "Essay" "Write it" 1000 Draft 1 5 ]>
        (<[ 1%N := mkAssignment "Quiz" "Answer it" 2000 Published 1 6 ]>
        {[ 2%N := mkAssignment "Lab" "Run it" 3000 Published 2 7 ]})) ∅.

(** A published quiz of teacher 1, due at 2000, without submissions. *)
Definition open_quiz : DB :=
  mkDB {[ 1%N := mkAssignment "Quiz" "Answer it" 2000 Published 1 6 ]} ∅.

(** The quiz of [open_quiz] with the submission of student 7. *)
Definition answered_quiz : DB :=
  mkDB {[ 1%N := mkAssignment "Quiz" "Answer it" 2000 Published 1 6 ]}
       {[ 0%N := mkSubmission 1 7 "42" 10 false None None ]}.

(** A submission graded by its teacher. *)
Definition graded_quiz : DB :=
  mkDB {[ 1%N := mkAssignment "Quiz" "Answer it" 2000 Published 1 6 ]}
       {[ 0%N := mkSubmission 1 7 "42" 10 true (Some 90%Q) None ]}.

(** The database after four requests to the empty server: teacher 1
    creates a quiz and publishes it, student 7 answers it, teacher 1
    reviews the answer with grade 0. *)
Definition zero_graded : DB :=
  let newDate := fun _ : string => Some 2000%Z in
  let teacher := mkUser 1 "teacher" in
  let student := mkUser 7 "student" in
  serve newDate (ReviewSubmission teacher 0 (mkReviewBody (JNum 0) None))
    (serve newDate (CreateSubmission student (mkSubmissionBody (Some 0%N) (Some "42")) 10)
       (serve newDate (UpdateAssignmentStatus teacher 0 (Some "Published"))
          (serve newDate
             (CreateAssignment teacher
                (mkAssignmentBody (Some "Quiz") (Some "Answer it") (Some "2030-01-01")) 5)
             (mkDB ∅ ∅)))).

(** ** Vocabulary of the further properties *)

(** The [isOverdue] virtual of the Assignment schema, read at the time
    [now]. *)
Definition isOverdue (now : Z) (a : Assignment) : bool :=
  (dueDate a <? now)%Z && negb (bool_decide (status a = Completed)).

(** [req.user] of a request. *)
Definition request_user (r : Request) : User :=
  match r with
  | GetAssignments user _ | CreateAssignment user _ _ | UpdateAssignment user _ _
  | DeleteAssignment user _ | UpdateAssignmentStatus user _ _ | GetAssignment user _
  | CreateSubmission user _ _ | GetSubmissionsByAssignment user _
  | GetMySubmissions user | ReviewSubmission user _ _ | GetAnalytics user => user
  end.

(** The position of a status in the lifecycle. *)
Definition status_rank (s : Status) : nat :=
  match s with
  | Draft => 0
  | Published => 1
  | Completed => 2
  end.

(** The databases that requests produce from the empty one. *)
Definition reachable (newDate : string -> option Z) (db : DB) : Prop :=
  rtc (step newDate) (mkDB ∅ ∅) db.

(** Every submission is to an assignment of the collection that has left
    the Draft status. *)
Definition well_referenced (db : DB) : Prop :=
  forall i s,
    submissions db !! i = Some s ->
    exists a, assignments db !! assignmentId s = Some a /\ status a <> Draft.

(** Every stored grade is a number of [0, 100]. *)
Definition grades_in_range (m : gmap N Submission) : Prop :=
  forall i s g, m !! i = Some s -> grade s = Some g -> (0 <= g /\ g <= 100)%Q.

(** A submission that is not reviewed has neither grade nor feedback. *)
Definition marks_imply_reviewed (m : gmap N Submission) : Prop :=
  forall i s, m !! i = Some s -> reviewed s = false -> grade s = None /\ feedback s = None.

(** Title and description of every assignment are non-empty. *)
Definition texts_nonempty (m : gmap N Assignment) : Prop :=
  forall i a, m !! i = Some a -> title a <> "" /\ description a <> "".

(** The grade of the body passes the check of the controller. *)
Definition grade_accepted (g : jsval) : Prop :=
  match g with
  | JUndefined => True
  | JNum x => (0 <= x /\ x <= 100)%Q
  | _ => False
  end.

(** Every stored answer is non-empty and has no white space around it,
    and so has every stored feedback apart from being possibly empty:
    trimming them again changes nothing. *)
Definition texts_trimmed (m : gmap N Submission) : Prop :=
  forall i s,
    m !! i = Some s ->
    answer s <> "" /\ trim (answer s) = answer s
    /\ forall f, feedback s = Some f -> trim f = f.

(** The [data] of a response, when it has one. *)
Definition data_of {A} (r : Response A) : option A :=
  match r with
  | Sent _ _ _ d => d
  | Thrown => None
  end.

(** The database of a server that has served nothing yet. *)
Definition empty_db : DB := mkDB ∅ ∅.

(** * Properties *)

(** ** Status transitions *)

Lemma status_of_string_name v s : status_of_string v = Some s -> v = status_name s.
Proof.
  unfold status_of_string.
  destruct (String.eqb_spec v "Draft"); [intros [= <-]; done|].
  destruct (String.eqb_spec v "Published"); [intros [= <-]; done|].
  destruct (String.eqb_spec v "Completed"); [intros [= <-]; done|].
  done.
Qed.

Lemma status_of_string_supplied v s : status_of_string v = Some s -> supplied (Some v) = Some v.
Proof.
  intros ->%status_of_string_name. by destruct s.
Qed.

(** The transition table, read as a relation. *)
Lemma transition_allowed_spec from to :
  transition_allowed from to = true <->
  (from = Draft /\ to = Published) \/ (from = Published /\ to = Completed).
Proof.
  destruct from, to; vm_compute; intuition congruence.
Qed.

(** C1, counterexample: teacher 2 asks Draft -> Completed on a draft of
    teacher 1 and is answered 403 (not authorized), not the transition
    message. *)
Lemma updateAssignmentStatus_foreign_caller :
  (updateAssignmentStatus (mkUser 2 "teacher") 0 (Some "Completed") draft_of_1).1
    = reject 403 "Not authorized to update this assignment"
  /\ ~ every_bad_transition_is_invalid_state.
Proof.
  split; [reflexivity|].
  intros H.
  specialize (H (mkUser 2 "teacher") 0%N "Completed" Completed draft_of_1
                (mkAssignment "Essay" "Write it" 1000 Draft 1 5)
                eq_refl eq_refl eq_refl).
  vm_compute in H. discriminate H.
Qed.

(** C1 (amended): for an existing assignment and a target that is one of
    the three status names, [updateAssignmentStatus] succeeds only for
    Draft -> Published and Published -> Completed, and then stores the
    target; for every other pair the database is left as it was, and the
    owner is answered 400 with the message naming the from -> to pair; the
    owner's call on a pair of the table succeeds; a caller who is not the
    owner is answered 403 whatever the pair. *)
Theorem updateAssignmentStatus_transitions user id v to db a :
  assignments db !! id = Some a ->
  status_of_string v = Some to ->
  let r := updateAssignmentStatus user id (Some v) db in
  (forall m d, r.1 = Sent 200 true m d ->
     ((status a = Draft /\ to = Published) \/ (status a = Published /\ to = Completed))
     /\ status_at id r.2 = Some to)
  /\ (transition_allowed (status a) to = false ->
      r.2 = db
      /\ (createdBy a = userId user ->
          r.1 = reject 400 ("Cannot change status from " +:+ status_name (status a)
                            +:+ " to " +:+ status_name to)))
  /\ (transition_allowed (status a) to = true -> createdBy a = userId user ->
      exists m d, r.1 = Sent 200 true m d)
  /\ (createdBy a <> userId user ->
      r = (reject 403 "Not authorized to update this assignment", db)).
Proof.
  intros Ha Hv r. subst r. unfold updateAssignmentStatus.
  rewrite (status_of_string_supplied _ _ Hv), Hv, Ha.
  pose proof (status_of_string_name _ _ Hv) as ->.
  destruct (N.eqb_spec (createdBy a) (userId user)) as [Ho|Ho]; simpl.
  - destruct (transition_allowed (status a) to) eqn:Ht; simpl.
    + repeat split; try done.
      * by apply transition_allowed_spec.
      * unfold status_at. simpl. by rewrite lookup_insert_eq.
      * eauto.
    + repeat split; try done.
  - repeat split; try done.
Qed.

Lemma updateAssignmentStatus_transitions_witness :
  (updateAssignmentStatus (mkUser 1 "teacher") 0 (Some "Completed") draft_of_1).2 = draft_of_1
  /\ (updateAssignmentStatus (mkUser 1 "teacher") 0 (Some "Completed") draft_of_1).1
     = reject 400 "Cannot change status from Draft to Completed".
Proof.
  destruct (updateAssignmentStatus_transitions (mkUser 1 "teacher") 0%N "Completed"
              Completed draft_of_1 (mkAssignment "Essay" "Write it" 1000 Draft 1 5)
              eq_refl eq_refl) as (_ & H & _ & _).
  destruct (H eq_refl) as [H1 H2]. split; [exact H1|exact (H2 eq_refl)].
Defined.

(** ** Queries over a collection *)

Lemma elem_of_find {A} (p : N * A -> bool) (m : gmap N A) (d : N * A) :
  d ∈ find p m <-> m !! d.1 = Some d.2 /\ p d = true.
Proof.
  unfold find. rewrite list_elem_of_In, filter_In, <- list_elem_of_In.
  by rewrite elem_of_map_to_list'.
Qed.

Lemma findOne_None {A} (p : N * A -> bool) (m : gmap N A) :
  findOne p m = None <-> forall i x, m !! i = Some x -> p (i, x) = false.
Proof.
  unfold findOne. rewrite head_None. split.
  - intros Hnil i x Hix. destruct (p (i, x)) eqn:Hp; [|done].
    assert ((i, x) ∈ find p m) as Hin by by apply elem_of_find.
    rewrite Hnil in Hin. by apply not_elem_of_nil in Hin.
  - intros Hall. destruct (find p m) as [|[i x] l] eqn:Hf; [done|].
    assert ((i, x) ∈ find p m) as [Hix Hp]%elem_of_find by (rewrite Hf; left).
    simpl in *. by rewrite (Hall i x Hix) in Hp.
Qed.

Lemma existsb_map_to_list_false {A} (p : N * A -> bool) (m : gmap N A) :
  existsb p (map_to_list m) = false <-> forall i x, m !! i = Some x -> p (i, x) = false.
Proof.
  rewrite <- not_true_iff_false, existsb_exists. split.
  - intros Hno i x Hix. destruct (p (i, x)) eqn:Hp; [|done].
    destruct Hno. exists (i, x). split; [|done].
    by apply list_elem_of_In, elem_of_map_to_list.
  - intros Hall ([i x] & Hin & Hp).
    apply list_elem_of_In, elem_of_map_to_list in Hin.
    by rewrite (Hall i x Hin) in Hp.
Qed.

(** A page is cut out of the sorted matches. *)
Lemma elem_of_page {A} (R : relation A) `{!RelDecision R} (n k : nat) (l : list A) (x : A) :
  x ∈ take n (drop k (merge_sort R l)) -> x ∈ l.
Proof.
  intros Hx. apply (subseteq_take n) in Hx. apply (subseteq_drop k) in Hx.
  by rewrite merge_sort_Permutation in Hx.
Qed.

(** ** Updating an assignment *)

(** A successful [updateAssignment] was asked by the owner of a draft, and
    stores that draft with the supplied fields replaced. *)
Lemma updateAssignment_effect (newDate : string -> option Z) user id body db m d :
  (updateAssignment newDate user id body db).1 = Sent 200 true m d ->
  exists a due',
    assignments db !! id = Some a
    /\ createdBy a = userId user /\ status a = Draft
    /\ match supplied (body_dueDate body) with
       | Some due => newDate due = Some due'
       | None => due' = dueDate a
       end
    /\ (updateAssignment newDate user id body db).2
       = set_assignments
           (<[id := mkAssignment (default (title a) (supplied (body_title body)))
                     (default (description a) (supplied (body_description body)))
                     due' (status a) (createdBy a) (createdAt a)]> (assignments db)) db.
Proof.
  unfold updateAssignment.
  destruct (assignments db !! id) as [a|]; [|done].
  destruct (N.eqb_spec (createdBy a) (userId user)) as [Ho|]; [|done].
  destruct (decide (status a = Draft)) as [Hs|Hs];
    [rewrite bool_decide_eq_true_2 by done|by rewrite bool_decide_eq_false_2].
  cbn [negb].
  destruct (supplied (body_dueDate body)) as [due|].
  - destruct (newDate due) as [due'|]; [|done].
    intros _. exists a, due'. repeat split; try done.
    by destruct (supplied (body_title body)), (supplied (body_description body)), a.
  - intros _. exists a, (dueDate a). repeat split; try done.
    by destruct (supplied (body_title body)), (supplied (body_description body)), a.
Qed.

Lemma supplied_None : supplied None = None.
Proof. reflexivity. Qed.

(** C9: after a successful [updateAssignment] the stored assignment differs
    from the previous one at most in the fields of the body that were
    supplied: a field whose key is absent keeps its value, and so do status,
    createdBy and createdAt; a supplied title or description is the new
    value.  No other document changes. *)
Theorem updateAssignment_frame (newDate : string -> option Z) user id body db m d :
  (updateAssignment newDate user id body db).1 = Sent 200 true m d ->
  let db' := (updateAssignment newDate user id body db).2 in
  exists a a',
    assignments db !! id = Some a /\ assignments db' !! id = Some a'
    /\ (body_title body = None -> title a' = title a)
    /\ (body_description body = None -> description a' = description a)
    /\ (body_dueDate body = None -> dueDate a' = dueDate a)
    /\ status a' = status a /\ createdBy a' = createdBy a /\ createdAt a' = createdAt a
    /\ title a' = default (title a) (supplied (body_title body))
    /\ description a' = default (description a) (supplied (body_description body))
    /\ (forall j, j <> id -> assignments db' !! j = assignments db !! j)
    /\ submissions db' = submissions db.
Proof.
  intros (a & due' & Ha & _ & _ & Hdue & ->)%updateAssignment_effect.
  eexists a, _. cbn [assignments submissions set_assignments].
  rewrite lookup_insert_eq. split; [done|]. split; [done|]. simpl.
  repeat split; try done.
  - intros ->. by rewrite supplied_None.
  - intros ->. by rewrite supplied_None.
  - intros Hb. by rewrite Hb, supplied_None in Hdue.
  - intros j Hj. by rewrite lookup_insert_ne.
Qed.

Lemma updateAssignment_frame_witness :
  let db' := (updateAssignment (fun _ => Some 2000%Z) (mkUser 1 "teacher") 0
                (mkAssignmentBody (Some "Report") None None) draft_of_1).2 in
  exists a a',
    assignments draft_of_1 !! 0%N = Some a /\ assignments db' !! 0%N = Some a'
    /\ (Some "Report" = None -> title a' = title a)
    /\ (@None string = None -> description a' = description a)
    /\ (@None string = None -> dueDate a' = dueDate a)
    /\ status a' = status a /\ createdBy a' = createdBy a /\ createdAt a' = createdAt a
    /\ title a' = "Report"
    /\ description a' = description a
    /\ (forall j, j <> 0%N -> assignments db' !! j = assignments draft_of_1 !! j)
    /\ submissions db' = submissions draft_of_1.
Proof.
  exact (updateAssignment_frame (fun _ => Some 2000%Z) (mkUser 1 "teacher") 0
           (mkAssignmentBody (Some "Report") None None) draft_of_1
           (Some "Assignment updated successfully")
           (Some (0%N, mkAssignment "Report" "Write it" 1000 Draft 1 5)) eq_refl).
Defined.

(** ** Listing assignments *)

Lemma getAssignments_data user q db m data d :
  (getAssignments user q db).1 = Sent 200 true m (Some data) ->
  d ∈ data ->
  assignments db !! d.1 = Some d.2 /\ matches (list_filter user q) d = true.
Proof.
  unfold getAssignments.
  destruct ((or_default (query_page q) 1 - 1) * or_default (query_limit q) 10 <? 0)%Z;
    [done|].
  simpl. intros [= _ <-] Hd.
  apply elem_of_page in Hd. by apply elem_of_find in Hd.
Qed.

Lemma matches_status s u d : matches (mkFilter (Some s) u) d = true -> status d.2 = s.
Proof.
  unfold matches. simpl. intros [Hs _]%andb_true_iff. by apply bool_decide_eq_true in Hs.
Qed.

Lemma matches_createdBy s u d : matches (mkFilter s (Some u)) d = true -> createdBy d.2 = u.
Proof.
  unfold matches. simpl. intros [_ Hu]%andb_true_iff. by apply N.eqb_eq in Hu.
Qed.

(** The filter of a teacher, by cases on the requested status. *)
Lemma list_filter_teacher user q :
  role user = "teacher" ->
  list_filter user q =
    mkFilter (query_status q ≫= status_of_string) (Some (userId user)).
Proof.
  intros Hr. unfold list_filter. rewrite Hr. simpl.
  destruct (query_status q) as [v|]; [|done]. simpl.
  destruct (String.eqb_spec v ""); simpl.
  - by subst v.
  - by destruct (status_of_string v).
Qed.

(** Each of the three status names is recognised, as the status it names,
    and nothing else is. *)
Lemma status_of_string_status_name s : status_of_string (status_name s) = Some s.
Proof. by destruct s. Qed.

Lemma status_of_string_None v :
  status_of_string v = None <-> forall s, v <> status_name s.
Proof.
  split.
  - intros Hv s ->. by rewrite status_of_string_status_name in Hv.
  - intros Hv. destruct (status_of_string v) as [s|] eqn:Hs; [|done].
    apply status_of_string_name in Hs. by destruct (Hv s).
Qed.

(** C4: every assignment that [getAssignments] returns is a document of the
    collection and
    - for a student it is Published, and the response does not depend on
      the status asked for;
    - for a teacher it was created by the caller; when the status asked
      for is one of the three names Draft, Published, Completed it has
      that status; and a status that is none of the three names gives the
      response of a request without one. *)
Theorem getAssignments_role_filter user q db :
  let r := getAssignments user q db in
  (forall m data, r.1 = Sent 200 true m (Some data) ->
     Forall (fun d => assignments db !! d.1 = Some d.2) data)
  /\ (role user = "student" ->
      (forall m data, r.1 = Sent 200 true m (Some data) ->
         Forall (fun d => status d.2 = Published) data)
      /\ (forall v, getAssignments user
                      (mkListQuery v (query_page q) (query_limit q)) db = r))
  /\ (role user = "teacher" ->
      (forall m data, r.1 = Sent 200 true m (Some data) ->
         Forall (fun d => createdBy d.2 = userId user) data)
      /\ (forall m data s, r.1 = Sent 200 true m (Some data) ->
            query_status q = Some (status_name s) ->
            Forall (fun d => status d.2 = s) data)
      /\ (forall v, query_status q = Some v -> (forall s, v <> status_name s) ->
            r = getAssignments user
                  (mkListQuery None (query_page q) (query_limit q)) db)).
Proof.
  intros r. subst r. split; [|split].
  - intros m data Hr. apply Forall_forall. intros d Hd.
    by destruct (getAssignments_data _ _ _ _ _ _ Hr Hd).
  - intros Hrole. split.
    + intros m data Hr. apply Forall_forall. intros d Hd.
      destruct (getAssignments_data _ _ _ _ _ _ Hr Hd) as [_ Hm].
      unfold list_filter in Hm. rewrite Hrole in Hm. by apply matches_status in Hm.
    + intros v. unfold getAssignments, list_filter. by rewrite Hrole.
  - intros Hrole. split; [|split].
    + intros m data Hr. apply Forall_forall. intros d Hd.
      destruct (getAssignments_data _ _ _ _ _ _ Hr Hd) as [_ Hm].
      rewrite (list_filter_teacher _ _ Hrole) in Hm. by apply matches_createdBy in Hm.
    + intros m data s Hr Hq. apply Forall_forall. intros d Hd.
      destruct (getAssignments_data _ _ _ _ _ _ Hr Hd) as [_ Hm].
      rewrite (list_filter_teacher _ _ Hrole), Hq in Hm. simpl in Hm.
      rewrite status_of_string_status_name in Hm. by apply matches_status in Hm.
    + intros v Hq Hv%status_of_string_None. unfold getAssignments.
      rewrite !(list_filter_teacher _ _ Hrole), Hq. simpl. by rewrite Hv.
Qed.

Lemma getAssignments_role_filter_witness :
  Forall (fun d : N * Assignment => status d.2 = Published)
    [(2%N, mkAssignment "Lab" "Run it" 3000 Published 2 7);
     (1%N, mkAssignment "Quiz" "Answer it" 2000 Published 1 6)]
  /\ Forall (fun d : N * Assignment => createdBy d.2 = 1%N)
       [(1%N, mkAssignment "Quiz" "Answer it" 2000 Published 1 6);
        (0%N, mkAssignment "Essay" "Write it" 1000 Draft 1 5)]
  /\ Forall (fun d : N * Assignment => status d.2 = Draft)
       [(0%N, mkAssignment "Essay" "Write it" 1000 Draft 1 5)]
  /\ Forall (fun d : N * Assignment => status d.2 = Published)
       [(1%N, mkAssignment "Quiz" "Answer it" 2000 Published 1 6)]
  /\ getAssignments (mkUser 1 "teacher") (mkListQuery (Some "graded") None None)
       three_assignments
     = getAssignments (mkUser 1 "teacher") (mkListQuery None None None) three_assignments.
Proof.
  split; [|split; [|split; [|split]]].
  - exact (proj1 (proj1 (proj2 (getAssignments_role_filter (mkUser 7 "student")
             (mkListQuery (Some "Draft") None None) three_assignments)) eq_refl)
             None _ eq_refl).
  - exact (proj1 (proj2 (proj2 (getAssignments_role_filter (mkUser 1 "teacher")
             (mkListQuery (Some "graded") None None) three_assignments)) eq_refl)
             None _ eq_refl).
  - exact (proj1 (proj2 (proj2 (proj2 (getAssignments_role_filter (mkUser 1 "teacher")
             (mkListQuery (Some "Draft") None None) three_assignments)) eq_refl))
             None _ Draft eq_refl eq_refl).
  - exact (proj1 (proj2 (proj2 (proj2 (getAssignments_role_filter (mkUser 1 "teacher")
             (mkListQuery (Some "Published") None None) three_assignments)) eq_refl))
             None _ Published eq_refl eq_refl).
  - apply (proj2 (proj2 (proj2 (proj2 (getAssignments_role_filter (mkUser 1 "teacher")
             (mkListQuery (Some "graded") None None) three_assignments)) eq_refl))
             "graded" eq_refl).
    intros []; discriminate.
Defined.

(** ** What a request does to the Submission collection *)

Lemma new_id_fresh {A} (m : gmap N A) : m !! new_id m = None.
Proof. apply not_elem_of_dom, is_fresh. Qed.

Lemma no_submission_empty aid sid : no_submission aid sid ∅.
Proof. intros i s Hi. by rewrite lookup_empty in Hi. Qed.

Lemma same_pair_false aid sid (d : N * Submission) :
  same_pair aid sid d = false <-> ~ (assignmentId d.2 = aid /\ studentId d.2 = sid).
Proof.
  unfold same_pair. rewrite andb_false_iff, !N.eqb_neq. split; [tauto|].
  intros H. destruct (decide (assignmentId d.2 = aid)); [right|left]; tauto.
Qed.

Lemma findOne_same_pair_None aid sid (m : gmap N Submission) :
  findOne (same_pair aid sid) m = None <-> no_submission aid sid m.
Proof.
  rewrite findOne_None. unfold no_submission.
  split; intros H i s His; specialize (H i s His); by apply (same_pair_false _ _ (i, s)).
Qed.

Lemma Submission_create_Some aid sid ans now m :
  trim ans <> "" -> no_submission aid sid m ->
  Submission_create aid sid ans now m =
    Some (new_id m, fresh_submission aid sid ans now,
          <[new_id m := fresh_submission aid sid ans now]> m).
Proof.
  intros Hans Hno. unfold Submission_create.
  destruct (String.eqb_spec (trim ans) ""); [done|].
  assert (existsb (same_pair aid sid) (map_to_list m) = false) as ->; [|done].
  apply existsb_map_to_list_false. intros i s His.
  apply same_pair_false. exact (Hno i s His).
Qed.

Lemma Submission_create_inv aid sid ans now m id s m' :
  Submission_create aid sid ans now m = Some (id, s, m') ->
  id = new_id m /\ s = fresh_submission aid sid ans now /\ m' = <[id := s]> m
  /\ trim ans <> "" /\ no_submission aid sid m.
Proof.
  unfold Submission_create.
  destruct (String.eqb_spec (trim ans) ""); [done|].
  destruct (existsb _ _) eqn:Hex; [done|].
  intros [= <- <- <-]. repeat split; try done.
  intros i s His. apply (same_pair_false _ _ (i, s)).
  by apply (proj1 (existsb_map_to_list_false _ _) Hex).
Qed.

(** The effect of [createSubmission] on the database: nothing, or one new
    document under an unused id for a pair that had none. *)
Lemma createSubmission_effect user body now db :
  let r := createSubmission user body now db in
  r.2 = db
  \/ exists aid ans,
       body_assignmentId body = Some aid
       /\ no_submission aid (userId user) (submissions db)
       /\ submissions db !! new_id (submissions db) = None
       /\ r.2 = set_submissions
                  (<[new_id (submissions db) := fresh_submission aid (userId user) ans now]>
                     (submissions db)) db.
Proof.
  unfold createSubmission.
  destruct (body_assignmentId body) as [aid|]; [|by left].
  destruct (supplied (body_answer body)) as [ans|]; [|by left].
  destruct (assignments db !! aid) as [a|]; [|by left].
  destruct (negb _); [by left|].
  destruct (dueDate a <? now)%Z; [by left|].
  destruct (findOne _ _) eqn:Hf; [by left|].
  destruct (Submission_create _ _ _ _ _) as [[[id s] m]|] eqn:Hc; [|by left].
  apply Submission_create_inv in Hc as (-> & -> & -> & _ & Hno).
  right. exists aid, ans. repeat split; try done. apply new_id_fresh.
Qed.

(** The effect of [reviewSubmission]: a refusal or an exception and no
    change, or a success and the reviewed document in place of the old one. *)
Lemma reviewSubmission_effect user id body db :
  let r := reviewSubmission user id body db in
  (r.2 = db /\ (r.1 = Thrown \/ exists code msg, r.1 = reject code msg))
  \/ exists s,
       submissions db !! id = Some s
       /\ r.1 = Sent 200 true (Some "Submission reviewed successfully")
                  (Some (id, reviewed_with body s))
       /\ r.2 = set_submissions (<[id := reviewed_with body s]> (submissions db)) db.
Proof.
  unfold reviewSubmission.
  destruct (submissions db !! id) as [s|]; [|left; eauto].
  destruct (assignments db !! assignmentId s) as [a|]; [|left; eauto].
  destruct (negb _); [left; eauto|].
  destruct (validate_grade (body_grade body) s) as [s'|] eqn:Hg; [|left; eauto].
  right. exists s. split; [done|].
  assert (with_reviewed true
            match body_feedback body with
            | Some f => with_feedback (trim f) s'
            | None => s'
            end = reviewed_with body s) as ->; [|done].
  unfold validate_grade in Hg. unfold reviewed_with.
  destruct (body_grade body) as [| | |x| |]; try done.
  - injection Hg as <-. by destruct (body_feedback body).
  - destruct (negb (Qle_bool 0 x) || negb (Qle_bool x 100)); [done|].
    injection Hg as <-. by destruct (body_feedback body).
Qed.

(** ** Creating a submission *)

(** C3, counterexample: an answer of two spaces is present for the
    controller, but the schema trims it to the empty string, which the
    required path refuses; the request ends in the error middleware and
    nothing is stored. *)
Lemma createSubmission_blank_answer :
  createSubmission (mkUser 7 "student") (mkSubmissionBody (Some 1%N) (Some "  ")) 10 open_quiz
    = (Thrown, open_quiz)
  /\ ~ every_present_answer_is_accepted.
Proof.
  split; [reflexivity|].
  intros H.
  pose proof (no_submission_empty 1 7 : no_submission 1 7 (submissions open_quiz)) as Hno.
  destruct (H (mkUser 7 "student") 1%N "  " 10%Z open_quiz
              (mkAssignment "Quiz" "Answer it" 2000 Published 1 6)
              ltac:(discriminate) eq_refl Hno eq_refl eq_refl)
    as (m & d & Hr).
  vm_compute in Hr. discriminate Hr.
Qed.

(** C3 (amended): for a request with assignmentId and answer present, an
    existing assignment and no submission of the pair,
    - a Draft or Completed assignment gives 400 (not available) and no
      change;
    - a Published one whose dueDate is before the current time gives 400
      (due date passed) and no change;
    - a Published one whose dueDate is not before the current time, in
      particular one in the future, with an answer that is not blank, gives
      201 and stores one new submission with reviewed = false and neither
      grade nor feedback. *)
Theorem createSubmission_gating user aid ans now db a :
  ans <> "" ->
  assignments db !! aid = Some a ->
  no_submission aid (userId user) (submissions db) ->
  let r := createSubmission user (mkSubmissionBody (Some aid) (Some ans)) now db in
  (status a <> Published ->
     r = (reject 400 "Assignment is not available for submission", db))
  /\ (status a = Published -> (dueDate a < now)%Z ->
      r = (reject 400
             "Assignment due date has passed. Submissions are no longer accepted.", db))
  /\ (status a = Published -> (now <= dueDate a)%Z -> trim ans <> "" ->
      exists id s,
        r.1 = Sent 201 true (Some "Assignment submitted successfully") (Some (id, s))
        /\ submissions db !! id = None
        /\ submissions r.2 = <[id := s]> (submissions db)
        /\ assignments r.2 = assignments db
        /\ assignmentId s = aid /\ studentId s = userId user
        /\ reviewed s = false /\ grade s = None /\ feedback s = None).
Proof.
  intros Hans Ha Hno r. subst r. unfold createSubmission. simpl.
  assert (supplied (Some ans) = Some ans) as ->.
  { unfold supplied, truthy. by destruct (String.eqb_spec ans ""). }
  rewrite Ha. split; [|split].
  - intros Hs. by rewrite bool_decide_eq_false_2.
  - intros Hs Hdue. rewrite bool_decide_eq_true_2 by done. simpl.
    by rewrite (proj2 (Z.ltb_lt _ _) Hdue).
  - intros Hs Hdue Hblank. rewrite bool_decide_eq_true_2 by done. simpl.
    rewrite (proj2 (Z.ltb_ge _ _) Hdue).
    rewrite (proj2 (findOne_same_pair_None _ _ _) Hno).
    rewrite (Submission_create_Some _ _ _ _ _ Hblank Hno). simpl.
    eexists _, _. split; [done|]. split; [apply new_id_fresh|]. done.
Qed.

Lemma createSubmission_gating_witness :
  exists id s,
    (createSubmission (mkUser 7 "student") (mkSubmissionBody (Some 1%N) (Some " 42 "))
       10 open_quiz).1
      = Sent 201 true (Some "Assignment submitted successfully") (Some (id, s))
    /\ reviewed s = false /\ grade s = None /\ feedback s = None.
Proof.
  pose proof (no_submission_empty 1 7 : no_submission 1 7 (submissions open_quiz)) as Hno.
  destruct (createSubmission_gating (mkUser 7 "student") 1%N " 42 " 10%Z open_quiz
              (mkAssignment "Quiz" "Answer it" 2000 Published 1 6)
              ltac:(discriminate) eq_refl Hno) as (_ & _ & H).
  destruct (H eq_refl ltac:(vm_compute; discriminate) ltac:(vm_compute; discriminate))
    as (id & s & Hr & _ & _ & _ & _ & _ & Hrev & Hg & Hf).
  exists id, s. repeat split; assumption.
Defined.

(** ** One step of the server, seen from the Submission collection *)

Ltac by_cases_of handler :=
  unfold handler; repeat case_match; simpl; try done.

Lemma getAssignments_reads user q db : (getAssignments user q db).2 = db.
Proof. by_cases_of getAssignments. Qed.

Lemma getAssignment_reads user id db : (getAssignment user id db).2 = db.
Proof. by_cases_of getAssignment. Qed.

Lemma getSubmissionsByAssignment_reads user aid db :
  (getSubmissionsByAssignment user aid db).2 = db.
Proof. by_cases_of getSubmissionsByAssignment. Qed.

Lemma createAssignment_submissions newDate user body now db :
  submissions (createAssignment newDate user body now db).2 = submissions db.
Proof. by_cases_of createAssignment. Qed.

Lemma updateAssignment_submissions newDate user id body db :
  submissions (updateAssignment newDate user id body db).2 = submissions db.
Proof. by_cases_of updateAssignment. Qed.

Lemma deleteAssignment_submissions user id db :
  submissions (deleteAssignment user id db).2 = submissions db.
Proof. by_cases_of deleteAssignment. Qed.

Lemma updateAssignmentStatus_submissions user id target db :
  submissions (updateAssignmentStatus user id target db).2 = submissions db.
Proof. by_cases_of updateAssignmentStatus. Qed.

Lemma serve_submissions newDate r db :
  submissions_step (submissions db) (submissions (serve newDate r db)).
Proof.
  destruct r; simpl.
  - rewrite getAssignments_reads. constructor.
  - rewrite createAssignment_submissions. constructor.
  - rewrite updateAssignment_submissions. constructor.
  - rewrite deleteAssignment_submissions. constructor.
  - rewrite updateAssignmentStatus_submissions. constructor.
  - rewrite getAssignment_reads. constructor.
  - destruct (createSubmission_effect user body now db)
      as [->|(aid & ans & _ & Hno & Hfresh & ->)]; [constructor|].
    simpl. by apply step_new.
  - rewrite getSubmissionsByAssignment_reads. constructor.
  - constructor.
  - destruct (reviewSubmission_effect user id body db) as [[-> _]|(s & Hs & _ & ->)];
      [constructor|].
    simpl. by apply step_review.
  - constructor.
Qed.

Lemma serve_keeps_document newDate r db id s :
  submissions db !! id = Some s -> ~ is_review r id ->
  submissions (serve newDate r db) !! id = Some s.
Proof.
  intros Hs Hr. destruct r; simpl in *.
  - by rewrite getAssignments_reads.
  - by rewrite createAssignment_submissions.
  - by rewrite updateAssignment_submissions.
  - by rewrite deleteAssignment_submissions.
  - by rewrite updateAssignmentStatus_submissions.
  - by rewrite getAssignment_reads.
  - destruct (createSubmission_effect user body now db)
      as [->|(aid & ans & _ & _ & Hfresh & ->)]; [done|].
    simpl. rewrite lookup_insert_ne; [done|]. intros <-. congruence.
  - by rewrite getSubmissionsByAssignment_reads.
  - done.
  - destruct (reviewSubmission_effect user id0 body db) as [[-> _]|(s' & _ & _ & ->)];
      [done|].
    simpl. rewrite lookup_insert_ne; [done|]. intros <-. by apply Hr.
  - done.
Qed.

Lemma submissions_step_one_per_pair m m' :
  submissions_step m m' -> one_per_pair m -> one_per_pair m'.
Proof.
  intros Hstep Hinv. destruct Hstep as [|aid sid ans now Hno Hfresh|id s body Hs]; [done| |].
  - intros i j s1 s2 Hi Hj Ha Hst.
    destruct (decide (new_id m = i)) as [<-|Hi'], (decide (new_id m = j)) as [<-|Hj'];
      [done| | |].
    + rewrite lookup_insert_eq in Hi. rewrite lookup_insert_ne in Hj by done.
      injection Hi as <-. simpl in *. by destruct (Hno j s2 Hj).
    + rewrite lookup_insert_eq in Hj. rewrite lookup_insert_ne in Hi by done.
      injection Hj as <-. simpl in *. by destruct (Hno i s1 Hi).
    + rewrite lookup_insert_ne in Hi, Hj by done. by apply (Hinv i j s1 s2).
  - intros i j s1 s2 Hi Hj Ha Hst.
    destruct (decide (id = i)) as [<-|Hi'], (decide (id = j)) as [<-|Hj']; [done| | |].
    + rewrite lookup_insert_eq in Hi. rewrite lookup_insert_ne in Hj by done.
      injection Hi as <-. simpl in *. by apply (Hinv id j s s2).
    + rewrite lookup_insert_eq in Hj. rewrite lookup_insert_ne in Hi by done.
      injection Hj as <-. simpl in *. by apply (Hinv i id s1 s).
    + rewrite lookup_insert_ne in Hi, Hj by done. by apply (Hinv i j s1 s2).
Qed.

Lemma submissions_step_reviewed m m' id s :
  submissions_step m m' -> m !! id = Some s ->
  exists s', m' !! id = Some s' /\ (reviewed s = true -> reviewed s' = true).
Proof.
  intros Hstep Hs. destruct Hstep as [|aid sid ans now Hno Hfresh|id' s0 body Hs0].
  - by exists s.
  - exists s. split; [|done]. rewrite lookup_insert_ne; [done|]. intros <-. congruence.
  - destruct (decide (id' = id)) as [->|Hne].
    + eexists. by rewrite lookup_insert_eq.
    + exists s. by rewrite lookup_insert_ne.
Qed.

Lemma submissions_step_created m m' id s' :
  submissions_step m m' -> m !! id = None -> m' !! id = Some s' -> reviewed s' = false.
Proof.
  intros Hstep Hnone Hs'. destruct Hstep as [|aid sid ans now Hno Hfresh|id' s0 body Hs0].
  - congruence.
  - rewrite lookup_insert in Hs'. case_decide; [by simplify_eq|congruence].
  - rewrite lookup_insert in Hs'. case_decide; congruence.
Qed.

(** ** One submission for a pair *)

(** C2, counterexample: student 7 has submitted and submits again after
    the due date; the due-date check comes first and answers. *)
Lemma createSubmission_again_after_due :
  createSubmission (mkUser 7 "student") (mkSubmissionBody (Some 1%N) (Some "43"))
      3000 answered_quiz
    = (reject 400 "Assignment due date has passed. Submissions are no longer accepted.",
       answered_quiz)
  /\ ~ every_repeated_create_is_conflict.
Proof.
  split; [reflexivity|].
  intros H.
  specialize (H (mkUser 7 "student") (mkSubmissionBody (Some 1%N) (Some "43")) 3000%Z
                answered_quiz 1%N 0%N (mkSubmission 1 7 "42" 10 false None None)
                eq_refl eq_refl eq_refl eq_refl).
  vm_compute in H. discriminate H.
Qed.

(** C2 (amended): every request keeps the collection at one submission for
    a pair at most, so that every database reached from the empty one has
    that property; and when the pair has a submission, [createSubmission]
    for it stores nothing and is refused: with the conflict message when
    the request passes the checks that come first (answer present,
    assignment found, Published, current time not after dueDate), with the
    message of the first failing check otherwise. *)
Theorem createSubmission_one_per_pair (newDate : string -> option Z) :
  (forall db db',
     one_per_pair (submissions db) -> step newDate db db' ->
     one_per_pair (submissions db'))
  /\ (forall db, rtc (step newDate) (mkDB ∅ ∅) db -> one_per_pair (submissions db))
  /\ (forall user body now db aid i s,
        body_assignmentId body = Some aid ->
        submissions db !! i = Some s ->
        assignmentId s = aid -> studentId s = userId user ->
        let r := createSubmission user body now db in
        r.2 = db
        /\ (exists code msg, r.1 = reject code msg)
        /\ (forall a,
              truthy (body_answer body) = true ->
              assignments db !! aid = Some a ->
              status a = Published -> (now <= dueDate a)%Z ->
              r.1 = reject 400 "You have already submitted this assignment")).
Proof.
  assert (forall db db',
            one_per_pair (submissions db) -> step newDate db db' ->
            one_per_pair (submissions db')) as Hstep.
  { intros db db' Hinv [r <-].
    by apply (submissions_step_one_per_pair _ _ (serve_submissions newDate r db)). }
  split; [exact Hstep|]. split.
  - apply (rtc_ind_r (fun db => one_per_pair (submissions db))).
    + intros i j s1 s2 Hi. simpl in Hi. by rewrite lookup_empty in Hi.
    + intros db db' _ Hdb IH. by apply (Hstep db db').
  - intros user body now db aid i s Hbody Hs Ha Hst r. subst r.
    unfold createSubmission. rewrite Hbody.
    assert (exists d, findOne (same_pair aid (userId user)) (submissions db) = Some d)
      as [d Hd].
    { destruct (findOne _ _) eqn:Hf; [by eexists|].
      apply findOne_same_pair_None in Hf. by destruct (Hf i s Hs). }
    split; [|split].
    + repeat case_match; simpl; congruence.
    + repeat case_match; simpl; try congruence; by eexists _, _.
    + intros a Hans Hlook Hpub Hdue. unfold supplied. rewrite Hans.
      destruct (body_answer body) as [ans|]; [|done].
      rewrite Hlook, Hd. rewrite bool_decide_eq_true_2 by done. simpl.
      by rewrite (proj2 (Z.ltb_ge _ _) Hdue).
Qed.

Lemma createSubmission_one_per_pair_witness :
  (createSubmission (mkUser 7 "student") (mkSubmissionBody (Some 1%N) (Some "43"))
     100 answered_quiz).2 = answered_quiz
  /\ (createSubmission (mkUser 7 "student") (mkSubmissionBody (Some 1%N) (Some "43"))
        100 answered_quiz).1
     = reject 400 "You have already submitted this assignment".
Proof.
  destruct (proj2 (proj2 (createSubmission_one_per_pair (fun _ => None)))
              (mkUser 7 "student") (mkSubmissionBody (Some 1%N) (Some "43")) 100%Z
              answered_quiz 1%N 0%N (mkSubmission 1 7 "42" 10 false None None)
              eq_refl eq_refl eq_refl eq_refl) as (Hdb & _ & Hmsg).
  split; [exact Hdb|].
  exact (Hmsg (mkAssignment "Quiz" "Answer it" 2000 Published 1 6)
           eq_refl eq_refl eq_refl ltac:(vm_compute; discriminate)).
Defined.

(** ** Reviewing a submission *)

(** C6: a successful [reviewSubmission] stores the submission with
    reviewed = true; its grade is the number of the body when the body has
    one and the previous grade when the body has no grade, its feedback is
    the previous one when the body has none, and so changes only when one
    was supplied; nothing else changes.  The owner's review without grade
    and without feedback is such a success. *)
Theorem reviewSubmission_marks_reviewed user id body db :
  let r := reviewSubmission user id body db in
  (forall m d, r.1 = Sent 200 true m d ->
     exists s s',
       submissions db !! id = Some s /\ submissions r.2 !! id = Some s'
       /\ reviewed s' = true
       /\ (forall g, body_grade body = JNum g -> grade s' = Some g)
       /\ (body_grade body = JUndefined -> grade s' = grade s)
       /\ (grade s' <> grade s -> exists g, body_grade body = JNum g)
       /\ (body_feedback body = None -> feedback s' = feedback s)
       /\ (forall f, body_feedback body = Some f -> feedback s' = Some (trim f))
       /\ assignmentId s' = assignmentId s /\ studentId s' = studentId s
       /\ answer s' = answer s /\ submittedAt s' = submittedAt s
       /\ (forall j, j <> id -> submissions r.2 !! j = submissions db !! j)
       /\ assignments r.2 = assignments db)
  /\ (forall s a,
        submissions db !! id = Some s ->
        assignments db !! assignmentId s = Some a ->
        createdBy a = userId user ->
        body_grade body = JUndefined -> body_feedback body = None ->
        r.1 = Sent 200 true (Some "Submission reviewed successfully")
                (Some (id, with_reviewed true s))
        /\ submissions r.2 !! id = Some (with_reviewed true s)).
Proof.
  intros r. subst r. split.
  - intros m d Hr.
    destruct (reviewSubmission_effect user id body db)
      as [[_ [Hthrown|(code & msg & Hrej)]]|(s & Hs & _ & Hdb)]; [congruence| |].
    + rewrite Hrej in Hr. discriminate Hr.
    + rewrite Hdb. simpl. exists s, (reviewed_with body s).
      rewrite lookup_insert_eq. unfold reviewed_with. simpl.
      repeat split; try done.
      * by intros g ->.
      * by intros ->.
      * intros Hg. destruct (body_grade body); try done. by eexists.
      * by intros ->.
      * by intros f ->.
      * intros j Hj. by rewrite lookup_insert_ne.
  - intros s a Hs Ha Ho Hg Hf. unfold reviewSubmission.
    rewrite Hs, Ha, Hg, Hf. rewrite (proj2 (N.eqb_eq _ _) Ho). simpl.
    by rewrite lookup_insert_eq.
Qed.

Lemma reviewSubmission_marks_reviewed_witness :
  let r := reviewSubmission (mkUser 1 "teacher") 0 (mkReviewBody JUndefined None)
             answered_quiz in
  r.1 = Sent 200 true (Some "Submission reviewed successfully")
          (Some (0%N, mkSubmission 1 7 "42" 10 true None None))
  /\ submissions r.2 !! 0%N = Some (mkSubmission 1 7 "42" 10 true None None).
Proof.
  exact (proj2 (reviewSubmission_marks_reviewed (mkUser 1 "teacher") 0
                  (mkReviewBody JUndefined None) answered_quiz)
           (mkSubmission 1 7 "42" 10 false None None)
           (mkAssignment "Quiz" "Answer it" 2000 Published 1 6)
           eq_refl eq_refl eq_refl eq_refl eq_refl).
Defined.

Lemma validate_grade_bad g s : bad_grade g -> validate_grade g s = None.
Proof.
  destruct g as [| | |x| |]; simpl; try done.
  intros [Hlt|Hgt].
  - assert (Qle_bool 0 x = false) as ->; [|done].
    apply not_true_iff_false. rewrite Qle_bool_iff. by apply Qlt_not_le.
  - assert (Qle_bool x 100 = false) as ->; [|by rewrite orb_true_r].
    apply not_true_iff_false. rewrite Qle_bool_iff. by apply Qlt_not_le.
Qed.

(** C7, counterexample: teacher 2 grades a submission to teacher 1's quiz
    with 150; the ownership check comes first and answers 403. *)
Lemma reviewSubmission_foreign_reviewer :
  reviewSubmission (mkUser 2 "teacher") 0 (mkReviewBody (JNum 150) None) answered_quiz
    = (reject 403 "Not authorized to review this submission", answered_quiz)
  /\ ~ every_bad_grade_is_validation_error.
Proof.
  split; [reflexivity|].
  intros H.
  specialize (H (mkUser 2 "teacher") 0%N (mkReviewBody (JNum 150) None) answered_quiz
                (mkSubmission 1 7 "42" 10 false None None) eq_refl).
  assert (bad_grade (JNum 150)) as Hbad by (right; reflexivity).
  specialize (H Hbad). vm_compute in H. discriminate H.
Qed.

(** C7 (amended): a [reviewSubmission] whose body has a grade that is not
    a number or is outside [0, 100] leaves the whole database, and with it
    the grade, feedback and reviewed flag of the submission, as it was;
    when the submission exists and the caller owns its assignment the
    answer is 400 with the grade message; a missing submission is answered
    404 and a caller who does not own the assignment 403. *)
Theorem reviewSubmission_bad_grade user id body db :
  bad_grade (body_grade body) ->
  let r := reviewSubmission user id body db in
  r.2 = db
  /\ (forall s a,
        submissions db !! id = Some s ->
        assignments db !! assignmentId s = Some a ->
        createdBy a = userId user ->
        r.1 = reject 400 "Grade must be a number between 0 and 100")
  /\ (submissions db !! id = None -> r.1 = reject 404 "Submission not found")
  /\ (forall s a,
        submissions db !! id = Some s ->
        assignments db !! assignmentId s = Some a ->
        createdBy a <> userId user ->
        r.1 = reject 403 "Not authorized to review this submission").
Proof.
  intros Hbad r. subst r. unfold reviewSubmission. split; [|split; [|split]].
  - destruct (submissions db !! id) as [s|]; [|done].
    destruct (assignments db !! assignmentId s) as [a|]; [|done].
    destruct (negb _); [done|].
    by rewrite (validate_grade_bad _ s Hbad).
  - intros s a -> -> Ho. rewrite (proj2 (N.eqb_eq _ _) Ho). simpl.
    by rewrite (validate_grade_bad _ s Hbad).
  - by intros ->.
  - intros s a -> -> Ho. by rewrite (proj2 (N.eqb_neq _ _) Ho).
Qed.

Lemma reviewSubmission_bad_grade_witness :
  (reviewSubmission (mkUser 1 "teacher") 0 (mkReviewBody (JStr "A+") (Some "fine"))
     answered_quiz).2 = answered_quiz
  /\ (reviewSubmission (mkUser 1 "teacher") 0 (mkReviewBody (JStr "A+") (Some "fine"))
        answered_quiz).1
     = reject 400 "Grade must be a number between 0 and 100".
Proof.
  destruct (reviewSubmission_bad_grade (mkUser 1 "teacher") 0
              (mkReviewBody (JStr "A+") (Some "fine")) answered_quiz I)
    as (Hdb & Hmsg & _ & _).
  split; [exact Hdb|].
  exact (Hmsg (mkSubmission 1 7 "42" 10 false None None)
           (mkAssignment "Quiz" "Answer it" 2000 Published 1 6)
           eq_refl eq_refl eq_refl).
Defined.

(** ** The reviewed flag over time *)

(** C10: a request never turns the reviewed flag of a stored submission
    from true to false: the submission stays in the collection, keeps
    reviewed = true, and is left untouched altogether by every request
    that is not a review of it; a submission that a request adds has
    reviewed = false; hence a submission that is reviewed stays reviewed
    along every sequence of requests. *)
Theorem reviewed_is_monotone (newDate : string -> option Z) :
  (forall r db id s,
     submissions db !! id = Some s ->
     (exists s', submissions (serve newDate r db) !! id = Some s'
                 /\ (reviewed s = true -> reviewed s' = true))
     /\ (~ is_review r id -> submissions (serve newDate r db) !! id = Some s))
  /\ (forall r db id s',
        submissions db !! id = None ->
        submissions (serve newDate r db) !! id = Some s' -> reviewed s' = false)
  /\ (forall db db' id s,
        rtc (step newDate) db db' ->
        submissions db !! id = Some s -> reviewed s = true ->
        exists s', submissions db' !! id = Some s' /\ reviewed s' = true).
Proof.
  split; [|split].
  - intros r db id s Hs. split.
    + by apply (submissions_step_reviewed _ _ _ _ (serve_submissions newDate r db)).
    + by apply serve_keeps_document.
  - intros r db id s'.
    by apply (submissions_step_created _ _ _ _ (serve_submissions newDate r db)).
  - intros db db' id s Hreach. revert s.
    induction Hreach as [db|db db1 db' [r <-] _ IH]; intros s Hs Hrev.
    + by exists s.
    + destruct (submissions_step_reviewed _ _ _ _ (serve_submissions newDate r db) Hs)
        as (s1 & Hs1 & Hrev1).
      apply (IH s1 Hs1). by apply Hrev1.
Qed.

Lemma reviewed_is_monotone_witness :
  exists s',
    submissions (serve (fun _ => None)
                   (ReviewSubmission (mkUser 1 "teacher") 0 (mkReviewBody JUndefined None))
                   graded_quiz) !! 0%N = Some s'
    /\ reviewed s' = true.
Proof.
  exact (proj2 (proj2 (reviewed_is_monotone (fun _ => None)))
           graded_quiz _ 0%N (mkSubmission 1 7 "42" 10 true (Some 90%Q) None)
           (rtc_once _ _
              (ex_intro _ (ReviewSubmission (mkUser 1 "teacher") 0
                             (mkReviewBody JUndefined None)) eq_refl))
           eq_refl eq_refl).
Defined.

(** ** Analytics *)

Lemma group_by_assignment_stat_of docs :
  group_by_assignment docs = stat_of docs <$> remove_dups (assignmentId <$> docs).
Proof. reflexivity. Qed.

Lemma find_stat docs (ks : list N) k :
  List.find (fun stat => (stat_id stat =? k)%N) (stat_of docs <$> ks)
  = if decide (k ∈ ks) then Some (stat_of docs k) else None.
Proof.
  induction ks as [|k' ks IH].
  - destruct (decide (k ∈ [])) as [Hin|_]; [by apply not_elem_of_nil in Hin|done].
  - rewrite fmap_cons. cbn [List.find stat_of stat_id].
    destruct (N.eqb_spec k' k) as [->|Hne].
    + destruct (decide (k ∈ k :: ks)) as [_|Hnin]; [done|]. destruct Hnin. left.
    + rewrite IH. destruct (decide (k ∈ ks)) as [Hin|Hnin].
      * destruct (decide (k ∈ k' :: ks)) as [_|Hnin]; [done|]. destruct Hnin. by right.
      * destruct (decide (k ∈ k' :: ks)) as [Hin|_]; [|done].
        apply elem_of_cons in Hin as [->|Hin]; done.
Qed.

Lemma members_nil k docs : k ∉ assignmentId <$> docs -> members k docs = [].
Proof.
  induction docs as [|d docs IH]; [done|]. simpl.
  rewrite not_elem_of_cons. intros [Hne Hnin].
  destruct (N.eqb_spec (assignmentId d) k); [congruence|]. by apply IH.
Qed.

Lemma analytics_row_group docs a :
  analytics_row (group_by_assignment docs) a = row_of docs a.
Proof.
  unfold analytics_row, row_of. rewrite group_by_assignment_stat_of, find_stat.
  destruct (decide (a.1 ∈ remove_dups (assignmentId <$> docs))) as [Hin|Hnin]; [done|].
  rewrite elem_of_remove_dups in Hnin. by rewrite (members_nil _ _ Hnin).
Qed.

(** Summing a quantity group by group is summing it over all documents,
    when the keys have no duplicate and every document has one of them. *)
Lemma sumZ_cons x l : sumZ (x :: l) = (x + sumZ l)%Z.
Proof. reflexivity. Qed.

Lemma sumZ_indicator_absent (ks : list N) (k : N) (x : Z) :
  k ∉ ks -> sumZ ((fun k' => if (k =? k')%N then x else 0%Z) <$> ks) = 0%Z.
Proof.
  induction ks as [|k' ks IH]; [done|].
  rewrite not_elem_of_cons, fmap_cons, sumZ_cons. intros [Hne Hnin].
  rewrite (IH Hnin). by destruct (N.eqb_spec k k').
Qed.

Lemma sumZ_indicator (ks : list N) (k : N) (x : Z) :
  NoDup ks -> k ∈ ks ->
  sumZ ((fun k' => if (k =? k')%N then x else 0%Z) <$> ks) = x.
Proof.
  induction 1 as [|k' ks Hnin Hnd IH]; [by intros ?%not_elem_of_nil|].
  rewrite elem_of_cons, fmap_cons, sumZ_cons. intros [->|Hin].
  - rewrite N.eqb_refl, (sumZ_indicator_absent ks k' x Hnin). lia.
  - destruct (N.eqb_spec k k') as [->|Hne]; [done|]. by rewrite IH.
Qed.

Lemma sumZ_by_group (f : Submission -> Z) (ks : list N) (docs : list Submission) :
  NoDup ks -> (forall d, d ∈ docs -> assignmentId d ∈ ks) ->
  sumZ ((fun k => sumZ (f <$> members k docs)) <$> ks) = sumZ (f <$> docs).
Proof.
  intros Hnd. induction docs as [|d docs IH]; intros Hkeys.
  - clear. induction ks as [|k ks IHks]; [done|].
    rewrite fmap_cons, sumZ_cons, IHks. done.
  - rewrite fmap_cons, sumZ_cons.
    rewrite <- IH by (intros d' Hd'; apply Hkeys; by right).
    rewrite <- (sumZ_indicator ks (assignmentId d) (f d) Hnd) at 1
      by (apply Hkeys; left).
    clear. induction ks as [|k ks IHks]; [done|].
    rewrite !fmap_cons, !sumZ_cons, IHks.
    unfold members at 1. cbn [List.filter].
    destruct (assignmentId d =? k)%N; [rewrite fmap_cons, sumZ_cons|];
      fold (members k docs); lia.
Qed.

Lemma sumZ_ones {A} (l : list A) : sumZ ((fun _ => 1%Z) <$> l) = Z.of_nat (length l).
Proof. induction l as [|x l IH]; [done|]. rewrite fmap_cons, sumZ_cons, IH. simpl. lia. Qed.

Lemma NoDup_fst_filter {A} (p : N * A -> bool) (l : list (N * A)) :
  NoDup (fst <$> l) -> NoDup (fst <$> List.filter p l).
Proof.
  induction l as [|x l IH]; [done|]. rewrite fmap_cons, NoDup_cons. intros [Hx Hl].
  cbn [List.filter]. destruct (p x); [|by apply IH].
  rewrite fmap_cons, NoDup_cons. split; [|by apply IH].
  intros ([i y] & Hi & Hin)%list_elem_of_fmap. apply Hx.
  apply list_elem_of_fmap. exists (i, y). split; [done|].
  apply list_elem_of_In, filter_In in Hin as [Hin _]. by apply list_elem_of_In.
Qed.

Lemma NoDup_find_ids {A} (p : N * A -> bool) (m : gmap N A) : NoDup (fst <$> find p m).
Proof. apply NoDup_fst_filter, NoDup_fst_map_to_list. Qed.

(** The group of an owned assignment among the matched documents is the
    list of all submissions to it. *)
Lemma members_matched (ids : list N) (k : N) (l : list (N * Submission)) :
  k ∈ ids ->
  members k (snd <$> List.filter (fun d => bool_decide (assignmentId d.2 ∈ ids)) l)
  = snd <$> List.filter (fun d => (assignmentId d.2 =? k)%N) l.
Proof.
  intros Hk. induction l as [|d l IH]; [done|]. cbn [List.filter].
  destruct (N.eqb_spec (assignmentId d.2) k) as [Heq|Hne].
  - rewrite bool_decide_eq_true_2 by (by rewrite Heq).
    rewrite !fmap_cons. unfold members in *. cbn [List.filter].
    rewrite (proj2 (N.eqb_eq _ _) Heq). by rewrite IH.
  - destruct (bool_decide (assignmentId d.2 ∈ ids)); [|done].
    rewrite fmap_cons. unfold members in *. cbn [List.filter].
    rewrite (proj2 (N.eqb_neq _ _) Hne). by rewrite IH.
Qed.

(** The report of [getAnalytics], row by row. *)
Lemma getAnalytics_rows user db :
  let owned := find (fun d => (createdBy d.2 =? userId user)%N) (assignments db) in
  let docs := snd <$> find (fun d => bool_decide (assignmentId d.2 ∈ fst <$> owned))
                        (submissions db) in
  getAnalytics user db =
    (Sent 200 true None
       (Some (mkReport
                (mkOverview (Z.of_nat (length owned))
                   (sumZ ((fun _ => 1%Z) <$> docs))
                   (sumZ (reviewed_count <$> docs))
                   (sumZ ((fun _ => 1%Z) <$> docs) - sumZ (reviewed_count <$> docs))%Z)
                (row_of docs <$> owned))), db).
Proof.
  intros owned docs. unfold getAnalytics, submissionStats.
  fold owned. fold docs.
  assert (forall f : Submission -> Z,
            sumZ ((fun k => sumZ (f <$> members k docs)) <$>
                    remove_dups (assignmentId <$> docs)) = sumZ (f <$> docs)) as Hsum.
  { intros f. apply sumZ_by_group; [apply NoDup_remove_dups|].
    intros d Hd. apply elem_of_remove_dups, list_elem_of_fmap. by exists d. }
  rewrite group_by_assignment_stat_of, <- !list_fmap_compose.
  change (stat_totalSubmissions ∘ stat_of docs)
    with (fun k => sumZ ((fun _ => 1%Z) <$> members k docs)).
  change (stat_reviewedSubmissions ∘ stat_of docs)
    with (fun k => sumZ (reviewed_count <$> members k docs)).
  rewrite !Hsum. do 4 f_equal.
  apply list_fmap_ext. intros i a _.
  by rewrite <- group_by_assignment_stat_of, analytics_row_group.
Qed.

Lemma getAnalytics_row_of user db row :
  let owned := find (fun d => (createdBy d.2 =? userId user)%N) (assignments db) in
  row ∈ row_of (snd <$> find (fun d => bool_decide (assignmentId d.2 ∈ fst <$> owned))
                          (submissions db)) <$> owned ->
  exists a,
    a ∈ owned
    /\ row = mkRow a.1 (title a.2) (status a.2) (dueDate a.2)
               (Z.of_nat (length (submitted_to a.1 db)))
               (sumZ (reviewed_count <$> submitted_to a.1 db))
               (Z.of_nat (length (submitted_to a.1 db))
                - sumZ (reviewed_count <$> submitted_to a.1 db))%Z
               (rounded_average (avg (grade_operand <$> submitted_to a.1 db))).
Proof.
  intros owned (a & -> & Ha)%list_elem_of_fmap. exists a. split; [done|].
  unfold row_of, submitted_to, find.
  rewrite members_matched by (apply list_elem_of_fmap; by exists a).
  by rewrite sumZ_ones.
Qed.

(** C8: the report has one row for each assignment the caller owns and no
    other; a row counts the submissions to its assignment and the reviewed
    ones among them, its pendingReviews is their difference, and when the
    assignment has no submission the row is 0, 0, 0 and a null average;
    the overview counts the rows, sums their totalSubmissions and their
    reviewedSubmissions, and its pendingReviews is the difference of the
    two sums. *)
Theorem getAnalytics_report user db :
  exists report,
    getAnalytics user db = (Sent 200 true None (Some report), db)
    /\ NoDup (row_assignmentId <$> assignmentAnalytics report)
    /\ (forall id, id ∈ row_assignmentId <$> assignmentAnalytics report
                   <-> owns (userId user) db id)
    /\ (forall row, row ∈ assignmentAnalytics report ->
          totalSubmissions row
            = Z.of_nat (length (submitted_to (row_assignmentId row) db))
          /\ reviewedSubmissions row
             = sumZ (reviewed_count <$> submitted_to (row_assignmentId row) db)
          /\ pendingReviews row = (totalSubmissions row - reviewedSubmissions row)%Z
          /\ (submitted_to (row_assignmentId row) db = [] ->
              totalSubmissions row = 0%Z /\ reviewedSubmissions row = 0%Z
              /\ pendingReviews row = 0%Z /\ averageGrade row = None))
    /\ totalAssignments (overview report)
       = Z.of_nat (length (assignmentAnalytics report))
    /\ overview_totalSubmissions (overview report)
       = sumZ (totalSubmissions <$> assignmentAnalytics report)
    /\ totalReviewed (overview report)
       = sumZ (reviewedSubmissions <$> assignmentAnalytics report)
    /\ overview_pendingReviews (overview report)
       = (overview_totalSubmissions (overview report) - totalReviewed (overview report))%Z.
Proof.
  pose proof (getAnalytics_rows user db) as Hr. simpl in Hr.
  set (owned := find (fun d => (createdBy d.2 =? userId user)%N) (assignments db)) in *.
  set (docs := snd <$> find (fun d => bool_decide (assignmentId d.2 ∈ fst <$> owned))
                         (submissions db)) in *.
  eexists. split; [exact Hr|]. cbn [assignmentAnalytics overview totalAssignments
    overview_totalSubmissions totalReviewed overview_pendingReviews].
  assert (row_assignmentId <$> (row_of docs <$> owned) = fst <$> owned) as Hids.
  { rewrite <- list_fmap_compose. by apply list_fmap_ext. }
  assert (forall f : Submission -> Z,
            sumZ ((fun a : N * Assignment => sumZ (f <$> members a.1 docs)) <$> owned)
            = sumZ (f <$> docs)) as Hsum.
  { intros f.
    rewrite <- (sumZ_by_group f (fst <$> owned) docs).
    - by rewrite <- list_fmap_compose.
    - apply NoDup_find_ids.
    - intros d ([i d'] & -> & Hd)%list_elem_of_fmap.
      apply elem_of_find in Hd as [_ Hd]. by apply bool_decide_eq_true in Hd. }
  split; [rewrite Hids; apply NoDup_find_ids|].
  split; [|split; [|split; [|split; [|split]]]].
  - intros id. rewrite Hids, list_elem_of_fmap. unfold owns. split.
    + intros ([i a] & -> & [Hia Ho]%elem_of_find). exists a. split; [done|].
      by apply N.eqb_eq in Ho.
    + intros (a & Hia & Ho). exists (id, a). split; [done|].
      apply elem_of_find. split; [done|]. by apply N.eqb_eq.
  - intros row Hrow. apply getAnalytics_row_of in Hrow as (a & _ & ->). simpl.
    split; [done|]. split; [done|]. split; [done|].
    intros Hnil. by rewrite Hnil.
  - by rewrite !length_fmap.
  - rewrite <- list_fmap_compose. symmetry. apply (Hsum (fun _ => 1%Z)).
  - rewrite <- list_fmap_compose. symmetry. apply (Hsum reviewed_count).
  - done.
Qed.

Lemma getAnalytics_report_witness :
  exists report,
    getAnalytics (mkUser 1 "teacher") three_assignments
      = (Sent 200 true None (Some report), three_assignments)
    /\ forall row, row ∈ assignmentAnalytics report ->
         totalSubmissions row = 0%Z /\ reviewedSubmissions row = 0%Z
         /\ pendingReviews row = 0%Z /\ averageGrade row = None.
Proof.
  destruct (getAnalytics_report (mkUser 1 "teacher") three_assignments)
    as (report & Hr & _ & _ & Hrows & _).
  exists report. split; [exact Hr|].
  intros row Hrow. destruct (Hrows row Hrow) as (_ & _ & _ & Hzero).
  apply Hzero. reflexivity.
Defined.

(** *** The average grade of a row *)

Lemma getAnalytics_averageGrade user db report row :
  getAnalytics user db = (Sent 200 true None (Some report), db) ->
  row ∈ assignmentAnalytics report ->
  averageGrade row
  = rounded_average (avg (grade_operand <$> submitted_to (row_assignmentId row) db)).
Proof.
  rewrite getAnalytics_rows. intros [= <-] Hrow. cbn [assignmentAnalytics] in Hrow.
  by apply getAnalytics_row_of in Hrow as (a & _ & ->).
Qed.

Lemma avg_None (l : list (option Q)) : avg l = None <-> forall x, Some x ∉ l.
Proof.
  unfold avg. split.
  - destruct (omap id l) as [|y ys] eqn:Hl; [|done]. intros _ x Hx.
    assert (x ∈ omap id l) as Hin by (apply list_elem_of_omap; by exists (Some x)).
    rewrite Hl in Hin. by apply not_elem_of_nil in Hin.
  - intros Hno. destruct (omap id l) as [|y ys] eqn:Hl; [done|].
    assert (y ∈ omap id l) as ([z|] & Hz & Hy)%list_elem_of_omap by (rewrite Hl; left);
      simpl in Hy; [|done].
    injection Hy as ->. by destruct (Hno y).
Qed.

(** The average of a row is null when no submission is graded, and also
    when the mean of the grades is zero. *)
Lemma rounded_average_None (a : option Q) :
  rounded_average a = None <-> a = None \/ exists x, a = Some x /\ (x == 0)%Q.
Proof.
  destruct a as [x|]; simpl; [|by split; [left|]].
  destruct (Qeq_bool x 0) eqn:Hx.
  - split; [|done]. intros _. right. exists x. split; [done|]. by apply Qeq_bool_eq.
  - split; [done|]. intros [?|(y & [= <-] & Hy)]; [done|].
    apply Qeq_eq_bool in Hy. congruence.
Qed.

(** C5, the code at the failing input: the only submission to the quiz has
    the grade 0, the mean of the grades is 0, and the row reports a null
    average. *)
Theorem getAnalytics_zero_average :
  submitted_to 0 zero_graded = [mkSubmission 0 7 "42" 10 true (Some 0%Q) None]
  /\ avg (grade_operand <$> submitted_to 0 zero_graded) = Some 0%Q
  /\ (getAnalytics (mkUser 1 "teacher") zero_graded).1
     = Sent 200 true None
         (Some (mkReport (mkOverview 1 1 1 0)
                  [mkRow 0 "Quiz" Published 2000 1 1 0 None])).
Proof. repeat split; vm_compute; reflexivity. Qed.

(** * Further properties *)

(** ** What a request does to the Assignment collection *)

Lemma supplied_Some v t : supplied v = Some t -> v = Some t /\ t <> "".
Proof.
  unfold supplied, truthy. destruct v as [s|]; [|done].
  destruct (String.eqb_spec s ""); [done|]. by intros [= <-].
Qed.

Lemma createAssignment_effect (newDate : string -> option Z) user body now db :
  let r := createAssignment newDate user body now db in
  (r.2 = db /\ forall m d, r.1 <> Sent 201 true m d)
  \/ exists t d due due',
       supplied (body_title body) = Some t
       /\ supplied (body_description body) = Some d
       /\ supplied (body_dueDate body) = Some due /\ newDate due = Some due'
       /\ r = (Sent 201 true (Some "Assignment created successfully")
                 (Some (new_id (assignments db),
                        mkAssignment t d due' Draft (userId user) now)),
               set_assignments
                 (<[new_id (assignments db) :=
                      mkAssignment t d due' Draft (userId user) now]> (assignments db)) db).
Proof.
  unfold createAssignment.
  destruct (supplied (body_title body)) as [t|]; [|by left].
  destruct (supplied (body_description body)) as [d|]; [|by left].
  destruct (supplied (body_dueDate body)) as [due|]; [|by left].
  destruct (newDate due) as [due'|] eqn:Hdue; [|by left].
  right. by exists t, d, due, due'.
Qed.

Lemma deleteAssignment_effect user id db :
  let r := deleteAssignment user id db in
  (r.2 = db /\ forall m d, r.1 <> Sent 200 true m d)
  \/ exists a,
       assignments db !! id = Some a /\ createdBy a = userId user /\ status a = Draft
       /\ r = (Sent 200 true (Some "Assignment deleted successfully") None,
               set_assignments (delete id (assignments db)) db).
Proof.
  unfold deleteAssignment.
  destruct (assignments db !! id) as [a|]; [|by left].
  destruct (N.eqb_spec (createdBy a) (userId user)); [|by left].
  destruct (decide (status a = Draft));
    [rewrite bool_decide_eq_true_2 by done|rewrite bool_decide_eq_false_2 by done; by left].
  right. by exists a.
Qed.

Lemma updateAssignmentStatus_effect user id target db :
  let r := updateAssignmentStatus user id target db in
  (r.2 = db /\ forall m d, r.1 <> Sent 200 true m d)
  \/ exists a to,
       assignments db !! id = Some a /\ createdBy a = userId user
       /\ transition_allowed (status a) to = true
       /\ target = Some (status_name to)
       /\ r = (Sent 200 true (Some "Assignment status updated successfully")
                 (Some (id, with_status to a)),
               set_assignments (<[id := with_status to a]> (assignments db)) db).
Proof.
  unfold updateAssignmentStatus.
  destruct (supplied target) as [v|] eqn:Hv; [|by left].
  destruct (status_of_string v) as [to|] eqn:Hto; [|by left].
  destruct (assignments db !! id) as [a|]; [|by left].
  destruct (N.eqb_spec (createdBy a) (userId user)); [|by left].
  destruct (transition_allowed (status a) to) eqn:Ht; [|by left].
  right. exists a, to. apply supplied_Some in Hv as [-> _].
  by rewrite (status_of_string_name _ _ Hto).
Qed.

Lemma updateAssignment_refused (newDate : string -> option Z) user id body db :
  (forall m d, (updateAssignment newDate user id body db).1 <> Sent 200 true m d) ->
  (updateAssignment newDate user id body db).2 = db.
Proof.
  unfold updateAssignment. repeat case_match; simpl; try done; intros Hno; by edestruct Hno.
Qed.

Lemma createSubmission_assignments user body now db :
  assignments (createSubmission user body now db).2 = assignments db.
Proof. by_cases_of createSubmission. Qed.

Lemma reviewSubmission_assignments user id body db :
  assignments (reviewSubmission user id body db).2 = assignments db.
Proof. by_cases_of reviewSubmission. Qed.

Lemma default_supplied_nonempty (old : string) v :
  old <> "" -> default old (supplied v) <> "".
Proof.
  intros Hold. destruct (supplied v) as [t|] eqn:Ht; [|done].
  by apply supplied_Some in Ht as [_ ?].
Qed.

Lemma updateAssignment_cases (newDate : string -> option Z) user id body db :
  let r := updateAssignment newDate user id body db in
  r.2 = db
  \/ exists a a',
       assignments db !! id = Some a /\ createdBy a = userId user /\ status a = Draft
       /\ status a' = Draft /\ createdBy a' = createdBy a /\ createdAt a' = createdAt a
       /\ (title a <> "" -> title a' <> "")
       /\ (description a <> "" -> description a' <> "")
       /\ r.2 = set_assignments (<[id := a']> (assignments db)) db.
Proof.
  unfold updateAssignment.
  destruct (assignments db !! id) as [a|]; [|by left].
  destruct (N.eqb_spec (createdBy a) (userId user)) as [Ho|]; [|by left].
  destruct (decide (status a = Draft)) as [Hs|Hs];
    [rewrite bool_decide_eq_true_2 by done|rewrite bool_decide_eq_false_2 by done; by left].
  cbn [negb].
  destruct (supplied (body_dueDate body)) as [due|].
  - destruct (newDate due) as [due'|]; [|by left].
    right.
    exists a, (mkAssignment (default (title a) (supplied (body_title body)))
                 (default (description a) (supplied (body_description body)))
                 due' Draft (createdBy a) (createdAt a)).
    repeat split; try done; try apply default_supplied_nonempty.
    destruct a, (supplied (body_title body)), (supplied (body_description body));
      simpl in *; by subst.
  - right.
    exists a, (mkAssignment (default (title a) (supplied (body_title body)))
                 (default (description a) (supplied (body_description body)))
                 (dueDate a) Draft (createdBy a) (createdAt a)).
    repeat split; try done; try apply default_supplied_nonempty.
    destruct a, (supplied (body_title body)), (supplied (body_description body));
      simpl in *; by subst.
Qed.

(** One request against one stored assignment: it is left as it is, or the
    caller is its owner and edits or deletes it as a draft, or moves its
    status along the table. *)
Lemma serve_assignment (newDate : string -> option Z) r db id a :
  assignments db !! id = Some a ->
  let after := assignments (serve newDate r db) !! id in
  after = Some a
  \/ (createdBy a = userId (request_user r) /\ status a = Draft
      /\ ((after = None /\ r = DeleteAssignment (request_user r) id)
          \/ exists a', after = Some a' /\ status a' = Draft
                        /\ createdBy a' = createdBy a /\ createdAt a' = createdAt a
                        /\ (title a <> "" -> title a' <> "")
                        /\ (description a <> "" -> description a' <> "")))
  \/ (createdBy a = userId (request_user r)
      /\ exists to, transition_allowed (status a) to = true
                    /\ after = Some (with_status to a)).
Proof.
  intros Ha. destruct r; simpl.
  - rewrite getAssignments_reads. by left.
  - destruct (createAssignment_effect newDate user body now db)
      as [[-> _]|(t & d & due & due' & _ & _ & _ & _ & ->)]; [by left|].
    left. simpl. rewrite lookup_insert_ne; [done|].
    intros <-. by rewrite new_id_fresh in Ha.
  - destruct (updateAssignment_cases newDate user id0 body db)
      as [->|(a0 & a' & Ha0 & Ho & Hs & Hs' & Hc & Hca & Ht & Hd & ->)]; [by left|].
    simpl. destruct (decide (id0 = id)) as [->|Hne].
    + rewrite Ha in Ha0. injection Ha0 as <-. right. left.
      split; [done|]. split; [done|]. right. exists a'.
      by rewrite lookup_insert_eq.
    + left. by rewrite lookup_insert_ne.
  - destruct (deleteAssignment_effect user id0 db)
      as [[-> _]|(a0 & Ha0 & Ho & Hs & ->)]; [by left|].
    simpl. destruct (decide (id0 = id)) as [->|Hne].
    + rewrite Ha in Ha0. injection Ha0 as <-. right. left.
      split; [done|]. split; [done|]. left. by rewrite lookup_delete_eq.
    + left. by rewrite lookup_delete_ne.
  - destruct (updateAssignmentStatus_effect user id0 target db)
      as [[-> _]|(a0 & to & Ha0 & Ho & Ht & _ & ->)]; [by left|].
    simpl. destruct (decide (id0 = id)) as [->|Hne].
    + rewrite Ha in Ha0. injection Ha0 as <-. right. right.
      split; [done|]. exists to. by rewrite lookup_insert_eq.
    + left. by rewrite lookup_insert_ne.
  - rewrite getAssignment_reads. by left.
  - rewrite createSubmission_assignments. by left.
  - rewrite getSubmissionsByAssignment_reads. by left.
  - by left.
  - rewrite reviewSubmission_assignments. by left.
  - by left.
Qed.

(** ** Who may change an assignment, and how *)

(** A stored assignment changes under a request only when the caller is
    its owner; it disappears only as a draft, under the owner's delete
    request; while it stays its createdBy and createdAt are kept, its
    status changes only along the transition table and then nothing else
    changes, and once it has left Draft its title, description and dueDate
    are kept. *)
Theorem assignment_changes_only_by_owner (newDate : string -> option Z) r db id a :
  assignments db !! id = Some a ->
  let after := assignments (serve newDate r db) !! id in
  (after <> Some a -> createdBy a = userId (request_user r))
  /\ (after = None -> status a = Draft /\ r = DeleteAssignment (request_user r) id)
  /\ (forall a', after = Some a' ->
        createdBy a' = createdBy a /\ createdAt a' = createdAt a
        /\ (status a' <> status a ->
            transition_allowed (status a) (status a') = true
            /\ a' = with_status (status a') a)
        /\ (status a <> Draft ->
            title a' = title a /\ description a' = description a
            /\ dueDate a' = dueDate a)).
Proof.
  intros Ha after. subst after.
  destruct (serve_assignment newDate r db id a Ha)
    as [Hsame|[(Ho & Hs & [[Hgone Hr]|(a1 & Ha1 & Hs1 & Hc1 & Hca1 & _)])
              |(Ho & to & Ht & Hto)]].
  - rewrite Hsame. split; [done|]. split; [done|]. by intros a' [= <-].
  - rewrite Hgone. done.
  - rewrite Ha1. split; [done|]. split; [done|]. intros a' [= <-].
    repeat split; try done; congruence.
  - rewrite Hto. split; [done|]. split; [done|]. intros a' [= <-].
    by repeat split.
Qed.

Lemma assignment_changes_only_by_owner_witness :
  createdBy (mkAssignment "Essay" "Write it" 1000 Draft 1 5)
  = userId (request_user (DeleteAssignment (mkUser 1 "teacher") 0)).
Proof.
  apply (proj1 (assignment_changes_only_by_owner (fun _ => None)
                  (DeleteAssignment (mkUser 1 "teacher") 0) draft_of_1 0%N
                  (mkAssignment "Essay" "Write it" 1000 Draft 1 5) eq_refl)).
  vm_compute. discriminate.
Defined.

Lemma transition_allowed_rank from to :
  transition_allowed from to = true ->
  to <> Draft /\ from <> Completed /\ status_rank to = S (status_rank from).
Proof. intros [[-> ->]|[-> ->]]%transition_allowed_spec; done. Qed.

(** Once an assignment has left Draft, no sequence of requests removes it
    or changes its title, description, dueDate, createdBy or createdAt; its
    status never moves back, and a completed assignment never changes at
    all. *)
Theorem published_assignment_is_frozen (newDate : string -> option Z) db db' id a :
  rtc (step newDate) db db' ->
  assignments db !! id = Some a -> status a <> Draft ->
  exists a',
    assignments db' !! id = Some a'
    /\ title a' = title a /\ description a' = description a /\ dueDate a' = dueDate a
    /\ createdBy a' = createdBy a /\ createdAt a' = createdAt a
    /\ status_rank (status a) <= status_rank (status a')
    /\ (status a = Completed -> a' = a).
Proof.
  intros Hreach. revert a.
  induction Hreach as [db|db db1 db' [r <-] _ IH]; intros a Ha Hs.
  - exists a. by repeat split.
  - destruct (serve_assignment newDate r db id a Ha)
      as [Hsame|[(_ & Hd & _)|(_ & to & Ht & Hto)]]; [by apply IH|done|].
    apply transition_allowed_rank in Ht as (Hto1 & Hto2 & Hrank).
    destruct (IH (with_status to a) Hto Hto1) as (a' & Ha' & ? & ? & ? & ? & ? & Hr & _).
    exists a'. simpl in *. repeat split; try done; lia.
Qed.

Lemma published_assignment_is_frozen_witness :
  exists a',
    assignments (serve (fun _ => Some 1%Z)
                   (UpdateAssignment (mkUser 1 "teacher") 1
                      (mkAssignmentBody (Some "Exam") None (Some "2031-01-01")))
                   open_quiz) !! 1%N = Some a'
    /\ title a' = "Quiz" /\ dueDate a' = 2000%Z.
Proof.
  destruct (published_assignment_is_frozen (fun _ => Some 1%Z) open_quiz _ 1%N
              (mkAssignment "Quiz" "Answer it" 2000 Published 1 6)
              (rtc_once _ _
                 (ex_intro _ (UpdateAssignment (mkUser 1 "teacher") 1
                                (mkAssignmentBody (Some "Exam") None (Some "2031-01-01")))
                    eq_refl))
              eq_refl ltac:(discriminate))
    as (a' & Ha' & Ht & _ & Hd & _).
  exists a'. by repeat split.
Defined.

(** One request and one assignment that it adds. *)
Lemma serve_new_assignment (newDate : string -> option Z) r db id a' :
  assignments db !! id = None ->
  assignments (serve newDate r db) !! id = Some a' ->
  exists body now t d due due',
    r = CreateAssignment (request_user r) body now
    /\ supplied (body_title body) = Some t
    /\ supplied (body_description body) = Some d
    /\ supplied (body_dueDate body) = Some due /\ newDate due = Some due'
    /\ a' = mkAssignment t d due' Draft (userId (request_user r)) now.
Proof.
  intros Hnone. destruct r; simpl.
  - rewrite getAssignments_reads. congruence.
  - destruct (createAssignment_effect newDate user body now db)
      as [[-> _]|(t & d & due & due' & Ht & Hd & Hdue & Hdue' & ->)]; [congruence|].
    simpl. rewrite lookup_insert. case_decide; [|congruence]. intros [= <-].
    by exists body, now, t, d, due, due'.
  - destruct (updateAssignment_cases newDate user id0 body db)
      as [->|(a0 & a1 & Ha0 & _ & _ & _ & _ & _ & _ & _ & ->)]; [congruence|].
    simpl. rewrite lookup_insert. case_decide; congruence.
  - destruct (deleteAssignment_effect user id0 db)
      as [[-> _]|(a0 & Ha0 & _ & _ & ->)]; [congruence|].
    simpl. rewrite lookup_delete. case_decide; congruence.
  - destruct (updateAssignmentStatus_effect user id0 target db)
      as [[-> _]|(a0 & to & Ha0 & _ & _ & _ & ->)]; [congruence|].
    simpl. rewrite lookup_insert. case_decide; congruence.
  - rewrite getAssignment_reads. congruence.
  - rewrite createSubmission_assignments. congruence.
  - rewrite getSubmissionsByAssignment_reads. congruence.
  - congruence.
  - rewrite reviewSubmission_assignments. congruence.
  - congruence.
Qed.

(** An assignment enters the collection only through [createAssignment]:
    as a Draft of the caller, with non-empty title and description and the
    clock's createdAt. *)
Theorem new_assignment_is_callers_draft (newDate : string -> option Z) r db id a' :
  assignments db !! id = None ->
  assignments (serve newDate r db) !! id = Some a' ->
  status a' = Draft /\ createdBy a' = userId (request_user r)
  /\ title a' <> "" /\ description a' <> ""
  /\ exists body now, r = CreateAssignment (request_user r) body now /\ createdAt a' = now.
Proof.
  intros Hnone Ha'.
  destruct (serve_new_assignment newDate r db id a' Hnone Ha')
    as (body & now & t & d & due & due' & Hr & Ht & Hd & _ & _ & ->).
  apply supplied_Some in Ht as [_ Ht]. apply supplied_Some in Hd as [_ Hd].
  simpl. repeat split; try done. by exists body, now.
Qed.

Lemma new_assignment_is_callers_draft_witness :
  status (mkAssignment "Quiz" "Answer it" 2000 Draft 1 5) = Draft
  /\ createdBy (mkAssignment "Quiz" "Answer it" 2000 Draft 1 5) = 1%N.
Proof.
  destruct (new_assignment_is_callers_draft (fun _ => Some 2000%Z)
              (CreateAssignment (mkUser 1 "teacher")
                 (mkAssignmentBody (Some "Quiz") (Some "Answer it") (Some "2030-01-01")) 5)
              empty_db 0%N (mkAssignment "Quiz" "Answer it" 2000 Draft 1 5)
              eq_refl eq_refl)
    as (Hs & Hc & _).
  split; [exact Hs|exact Hc].
Defined.

(** Title and description of a stored assignment are never empty: every
    request keeps the property, so it holds in every database reached from
    the empty one. *)
Theorem assignment_texts_stay_nonempty (newDate : string -> option Z) :
  (forall r db, texts_nonempty (assignments db) ->
                texts_nonempty (assignments (serve newDate r db)))
  /\ (forall db, reachable newDate db -> texts_nonempty (assignments db)).
Proof.
  assert (forall r db, texts_nonempty (assignments db) ->
                       texts_nonempty (assignments (serve newDate r db))) as Hstep.
  { intros r db Hinv i a' Ha'.
    destruct (assignments db !! i) as [a|] eqn:Ha.
    - destruct (Hinv i a Ha) as [Ht Hd].
      destruct (serve_assignment newDate r db i a Ha)
        as [Hsame|[(_ & _ & [[Hgone _]|(a1 & Ha1 & _ & _ & _ & Ht1 & Hd1)])
                  |(_ & to & _ & Hto)]]; simplify_eq; auto.
    - destruct (serve_new_assignment newDate r db i a' Ha Ha')
        as (body & now & t & d & due & due' & _ & Ht & Hd & _ & _ & ->).
      apply supplied_Some in Ht as [_ Ht]. by apply supplied_Some in Hd as [_ Hd]. }
  split; [exact Hstep|].
  apply (rtc_ind_r (fun db => texts_nonempty (assignments db))).
  - intros i a Ha. simpl in Ha. by rewrite lookup_empty in Ha.
  - intros db db' _ [r <-] IH. by apply Hstep.
Qed.

Lemma assignment_texts_stay_nonempty_witness :
  title (mkAssignment "Essay" "Write it" 1000 Draft 1 5) <> ""
  /\ description (mkAssignment "Essay" "Write it" 1000 Draft 1 5) <> "".
Proof.
  exact (proj1 (assignment_texts_stay_nonempty (fun _ => None))
           (GetAnalytics (mkUser 1 "teacher")) draft_of_1
           ltac:(intros i a Ha; vm_compute in Ha;
                 destruct i as [|[]]; try discriminate Ha;
                 injection Ha as <-; split; discriminate)
           0%N (mkAssignment "Essay" "Write it" 1000 Draft 1 5) eq_refl).
Defined.

(** ** What a request does to one submission *)

Lemma createSubmission_cases user body now db :
  let r := createSubmission user body now db in
  r.2 = db
  \/ exists aid ans a,
       body_assignmentId body = Some aid /\ supplied (body_answer body) = Some ans
       /\ assignments db !! aid = Some a /\ status a = Published
       /\ (now <= dueDate a)%Z /\ trim ans <> ""
       /\ no_submission aid (userId user) (submissions db)
       /\ r = (Sent 201 true (Some "Assignment submitted successfully")
                 (Some (new_id (submissions db),
                        fresh_submission aid (userId user) ans now)),
               set_submissions
                 (<[new_id (submissions db) :=
                      fresh_submission aid (userId user) ans now]> (submissions db)) db).
Proof.
  unfold createSubmission.
  destruct (body_assignmentId body) as [aid|]; [|by left].
  destruct (supplied (body_answer body)) as [ans|]; [|by left].
  destruct (assignments db !! aid) as [a|] eqn:Ha; [|by left].
  destruct (decide (status a = Published)) as [Hs|Hs];
    [rewrite bool_decide_eq_true_2 by done|rewrite bool_decide_eq_false_2 by done; by left].
  cbn [negb]. destruct (Z.ltb_spec (dueDate a) now) as [|Hdue]; [by left|].
  destruct (findOne _ _) eqn:Hf; [by left|].
  destruct (Submission_create _ _ _ _ _) as [[[id s] m]|] eqn:Hc; [|by left].
  apply Submission_create_inv in Hc as (-> & -> & -> & Hans & Hno).
  right. exists aid, ans, a. by repeat (split; [done|]).
Qed.

Lemma validate_grade_accepted g s s' :
  validate_grade g s = Some s' -> grade_accepted g.
Proof.
  destruct g as [| | |x| |]; simpl; try done.
  destruct (Qle_bool 0 x) eqn:H0, (Qle_bool x 100) eqn:H100; try done.
  intros _. split; by apply Qle_bool_iff.
Qed.

Lemma reviewSubmission_cases user id body db :
  let r := reviewSubmission user id body db in
  r.2 = db
  \/ exists s a,
       submissions db !! id = Some s
       /\ assignments db !! assignmentId s = Some a /\ createdBy a = userId user
       /\ grade_accepted (body_grade body)
       /\ r.2 = set_submissions (<[id := reviewed_with body s]> (submissions db)) db.
Proof.
  destruct (reviewSubmission_effect user id body db) as [[Hdb _]|(s & Hs & Hr & Hdb)];
    [by left|].
  right. exists s. revert Hr Hdb. unfold reviewSubmission. rewrite Hs.
  destruct (assignments db !! assignmentId s) as [a|]; [|done].
  destruct (N.eqb_spec (createdBy a) (userId user)) as [Ho|]; [|done]. cbn [negb].
  destruct (validate_grade (body_grade body) s) as [s'|] eqn:Hg; [|done].
  intros _ Hdb. exists a. repeat split; try done. by eapply validate_grade_accepted.
Qed.

(** One request against one stored submission: it is left as it is, or it
    is reviewed by the owner of its assignment with an accepted grade. *)
Lemma serve_submission (newDate : string -> option Z) r db id s :
  submissions db !! id = Some s ->
  let after := submissions (serve newDate r db) !! id in
  after = Some s
  \/ exists body a,
       r = ReviewSubmission (request_user r) id body
       /\ assignments db !! assignmentId s = Some a
       /\ createdBy a = userId (request_user r)
       /\ grade_accepted (body_grade body)
       /\ after = Some (reviewed_with body s).
Proof.
  intros Hs.
  destruct r as [| | | | | | | | |user rid body|];
    try (left; apply serve_keeps_document; [done|simpl; tauto]).
  destruct (decide (rid = id)) as [->|Hne];
    [|left; apply serve_keeps_document; [done|by simpl]].
  simpl.
  destruct (reviewSubmission_cases user id body db)
    as [->|(s0 & a & Hs0 & Ha & Ho & Hg & ->)]; [by left|].
  rewrite Hs in Hs0. injection Hs0 as <-.
  right. exists body, a. simpl. by rewrite lookup_insert_eq.
Qed.

(** One request and one submission that it adds. *)
Lemma serve_new_submission (newDate : string -> option Z) r db id s' :
  submissions db !! id = None ->
  submissions (serve newDate r db) !! id = Some s' ->
  exists body now ans a,
    r = CreateSubmission (request_user r) body now
    /\ body_assignmentId body = Some (assignmentId s')
    /\ supplied (body_answer body) = Some ans /\ trim ans <> ""
    /\ assignments db !! assignmentId s' = Some a /\ status a = Published
    /\ (now <= dueDate a)%Z
    /\ no_submission (assignmentId s') (userId (request_user r)) (submissions db)
    /\ s' = fresh_submission (assignmentId s') (userId (request_user r)) ans now.
Proof.
  intros Hnone. destruct r; simpl.
  - rewrite getAssignments_reads. congruence.
  - rewrite createAssignment_submissions. congruence.
  - rewrite updateAssignment_submissions. congruence.
  - rewrite deleteAssignment_submissions. congruence.
  - rewrite updateAssignmentStatus_submissions. congruence.
  - rewrite getAssignment_reads. congruence.
  - destruct (createSubmission_cases user body now db)
      as [->|(aid & ans & a & Hb & Hans & Ha & Hst & Hdue & Htrim & Hno & ->)];
      [congruence|].
    simpl. rewrite lookup_insert. case_decide; [|congruence]. intros [= <-]. simpl.
    by exists body, now, ans, a.
  - rewrite getSubmissionsByAssignment_reads. congruence.
  - congruence.
  - destruct (reviewSubmission_cases user id0 body db)
      as [->|(s0 & a & Hs0 & _ & _ & _ & ->)]; [congruence|].
    simpl. rewrite lookup_insert. case_decide; congruence.
  - congruence.
Qed.

(** ** Who may change a submission, and how *)

(** A stored submission changes under a request only when the request is a
    review of it by the teacher who owns its assignment; and whatever the
    sequence of requests, it stays in the collection with the same
    assignmentId, studentId, answer and submittedAt. *)
Theorem submission_changes_only_by_review (newDate : string -> option Z) :
  (forall r db id s,
     submissions db !! id = Some s ->
     submissions (serve newDate r db) !! id <> Some s ->
     exists body a,
       r = ReviewSubmission (request_user r) id body
       /\ assignments db !! assignmentId s = Some a
       /\ createdBy a = userId (request_user r))
  /\ (forall db db' id s,
        rtc (step newDate) db db' ->
        submissions db !! id = Some s ->
        exists s',
          submissions db' !! id = Some s'
          /\ assignmentId s' = assignmentId s /\ studentId s' = studentId s
          /\ answer s' = answer s /\ submittedAt s' = submittedAt s).
Proof.
  split.
  - intros r db id s Hs Hchanged.
    destruct (serve_submission newDate r db id s Hs)
      as [Hsame|(body & a & Hr & Ha & Ho & _ & _)]; [done|].
    by exists body, a.
  - intros db db' id s Hreach. revert s.
    induction Hreach as [db|db db1 db' [r <-] _ IH]; intros s Hs.
    + by exists s.
    + destruct (serve_submission newDate r db id s Hs)
        as [Hsame|(body & a & _ & _ & _ & _ & Hrev)]; [by apply IH|].
      destruct (IH _ Hrev) as (s' & Hs' & ? & ? & ? & ?). by exists s'.
Qed.

Lemma submission_changes_only_by_review_witness :
  exists body a,
    ReviewSubmission (mkUser 1 "teacher") 0 (mkReviewBody (JNum 70) None)
    = ReviewSubmission (mkUser 1 "teacher") 0 body
    /\ assignments answered_quiz !! 1%N = Some a /\ createdBy a = 1%N.
Proof.
  apply (proj1 (submission_changes_only_by_review (fun _ => None))
           (ReviewSubmission (mkUser 1 "teacher") 0 (mkReviewBody (JNum 70) None))
           answered_quiz 0%N (mkSubmission 1 7 "42" 10 false None None) eq_refl).
  vm_compute. discriminate.
Defined.

(** A submission enters the collection only through [createSubmission]:
    in the caller's own name, with a non-empty answer, for a Published
    assignment of the collection to which the caller had no submission,
    not reviewed and without grade or feedback. *)
Theorem new_submission_is_callers_own (newDate : string -> option Z) r db id s' :
  submissions db !! id = None ->
  submissions (serve newDate r db) !! id = Some s' ->
  studentId s' = userId (request_user r)
  /\ answer s' <> ""
  /\ reviewed s' = false /\ grade s' = None /\ feedback s' = None
  /\ (exists a, assignments db !! assignmentId s' = Some a /\ status a = Published)
  /\ no_submission (assignmentId s') (studentId s') (submissions db)
  /\ exists body now, r = CreateSubmission (request_user r) body now.
Proof.
  intros Hnone Hs'.
  destruct (serve_new_submission newDate r db id s' Hnone Hs')
    as (body & now & ans & a & Hr & _ & _ & Htrim & Ha & Hst & _ & Hno & Heq).
  rewrite Heq. simpl. rewrite Heq in Ha, Hno. simpl in Ha, Hno.
  repeat split; try done; eauto.
Qed.

Lemma new_submission_is_callers_own_witness :
  studentId (mkSubmission 1 7 "42" 10 false None None) = 7%N
  /\ exists a, assignments open_quiz !! 1%N = Some a /\ status a = Published.
Proof.
  destruct (new_submission_is_callers_own (fun _ => None)
              (CreateSubmission (mkUser 7 "student")
                 (mkSubmissionBody (Some 1%N) (Some " 42 ")) 10)
              open_quiz 0%N (mkSubmission 1 7 "42" 10 false None None)
              eq_refl eq_refl) as (Hst & _ & _ & _ & _ & Ha & _).
  split; [exact Hst|exact Ha].
Defined.

(** ** Invariants of the reachable databases *)

Lemma zero_graded_reachable : reachable (fun _ => Some 2000%Z) zero_graded.
Proof.
  unfold reachable, zero_graded. cbv zeta.
  eapply rtc_l; [by eexists|]. eapply rtc_l; [by eexists|].
  eapply rtc_l; [by eexists|]. eapply rtc_l; [by eexists|]. apply rtc_refl.
Qed.

Lemma reachable_ind (newDate : string -> option Z) (P : DB -> Prop) :
  P empty_db -> (forall r db, P db -> P (serve newDate r db)) ->
  forall db, reachable newDate db -> P db.
Proof.
  intros Hempty Hstep. apply (rtc_ind_r P); [done|].
  intros db db' _ [r <-]. apply Hstep.
Qed.

(** Every request keeps every submission attached to an assignment of the
    collection that has left Draft, so that no reachable database holds a
    submission to a missing or an unpublished assignment; there
    [reviewSubmission] always sends an answer and never throws. *)
Theorem submissions_stay_referenced (newDate : string -> option Z) :
  (forall r db, well_referenced db -> well_referenced (serve newDate r db))
  /\ (forall db, reachable newDate db -> well_referenced db)
  /\ (forall db user id body,
        reachable newDate db -> (reviewSubmission user id body db).1 <> Thrown).
Proof.
  assert (forall r db, well_referenced db -> well_referenced (serve newDate r db))
    as Hstep.
  { intros r db Hinv i s' Hs'.
    destruct (submissions db !! i) as [s|] eqn:Hs.
    - assert (assignmentId s' = assignmentId s) as ->.
      { destruct (serve_submission newDate r db i s Hs)
          as [Hsame|(body & a & _ & _ & _ & _ & Hrev)]; by simplify_eq. }
      destruct (Hinv i s Hs) as (a & Ha & Hst).
      destruct (serve_assignment newDate r db _ a Ha)
        as [Hsame|[(_ & Hd & _)|(_ & to & Ht & Hto)]]; [by exists a|done|].
      exists (with_status to a). split; [done|]. simpl.
      by apply transition_allowed_rank in Ht as (? & _).
    - destruct (serve_new_submission newDate r db i s' Hs Hs')
        as (body & now & ans & a & -> & _ & _ & _ & Ha & Hst & _).
      exists a. simpl. rewrite createSubmission_assignments.
      split; [done|]. by rewrite Hst. }
  assert (forall db, reachable newDate db -> well_referenced db) as Hreach.
  { apply reachable_ind; [|exact Hstep].
    intros i s Hs. simpl in Hs. by rewrite lookup_empty in Hs. }
  split; [exact Hstep|]. split; [exact Hreach|].
  intros db user id body Hdb. unfold reviewSubmission.
  destruct (submissions db !! id) as [s|] eqn:Hs; [|done].
  destruct (Hreach db Hdb id s Hs) as (a & -> & _).
  by repeat case_match.
Qed.

Lemma submissions_stay_referenced_witness :
  exists a, assignments zero_graded !! 0%N = Some a /\ status a <> Draft.
Proof.
  exact (proj1 (proj2 (submissions_stay_referenced (fun _ => Some 2000%Z)))
           zero_graded zero_graded_reachable 0%N
           (mkSubmission 0 7 "42" 10 true (Some 0%Q) None)
           ltac:(vm_compute; reflexivity)).
Defined.

(** Every request keeps every stored grade within [0, 100], so that every
    grade of a reachable database is a number of that range. *)
Theorem stored_grades_stay_in_range (newDate : string -> option Z) :
  (forall r db, grades_in_range (submissions db) ->
                grades_in_range (submissions (serve newDate r db)))
  /\ (forall db, reachable newDate db -> grades_in_range (submissions db)).
Proof.
  assert (forall r db, grades_in_range (submissions db) ->
                       grades_in_range (submissions (serve newDate r db))) as Hstep.
  { intros r db Hinv i s' g Hs' Hg.
    destruct (submissions db !! i) as [s|] eqn:Hs.
    - destruct (serve_submission newDate r db i s Hs)
        as [Hsame|(body & a & _ & _ & _ & Hok & Hrev)].
      + rewrite Hsame in Hs'. injection Hs' as <-. by apply (Hinv i s g).
      + rewrite Hrev in Hs'. injection Hs' as <-. simpl in Hg.
        destruct (body_grade body) as [| | |x| |]; simpl in Hok;
          try done; try (by apply (Hinv i s g)). by injection Hg as <-.
    - destruct (serve_new_submission newDate r db i s' Hs Hs')
        as (body & now & ans & a & _ & _ & _ & _ & _ & _ & _ & _ & Heq).
      by rewrite Heq in Hg. }
  split; [exact Hstep|].
  apply (reachable_ind newDate (fun db => grades_in_range (submissions db))); [|exact Hstep].
  intros i s g Hs. simpl in Hs. by rewrite lookup_empty in Hs.
Qed.

Lemma stored_grades_stay_in_range_witness : (0 <= 0 /\ 0 <= 100)%Q.
Proof.
  exact (proj2 (stored_grades_stay_in_range (fun _ => Some 2000%Z))
           zero_graded zero_graded_reachable 0%N
           (mkSubmission 0 7 "42" 10 true (Some 0%Q) None) 0%Q
           ltac:(vm_compute; reflexivity) eq_refl).
Defined.

(** Every request keeps the submissions that are not reviewed without
    grade and without feedback: in a reachable database a grade or a
    feedback is found only on a reviewed submission. *)
Theorem marks_only_on_reviewed (newDate : string -> option Z) :
  (forall r db, marks_imply_reviewed (submissions db) ->
                marks_imply_reviewed (submissions (serve newDate r db)))
  /\ (forall db, reachable newDate db -> marks_imply_reviewed (submissions db)).
Proof.
  assert (forall r db, marks_imply_reviewed (submissions db) ->
                       marks_imply_reviewed (submissions (serve newDate r db))) as Hstep.
  { intros r db Hinv i s' Hs' Hrev.
    destruct (submissions db !! i) as [s|] eqn:Hs.
    - destruct (serve_submission newDate r db i s Hs)
        as [Hsame|(body & a & _ & _ & _ & _ & Hr)].
      + rewrite Hsame in Hs'. injection Hs' as <-. by apply (Hinv i s).
      + rewrite Hr in Hs'. by injection Hs' as <-.
    - destruct (serve_new_submission newDate r db i s' Hs Hs')
        as (body & now & ans & a & _ & _ & _ & _ & _ & _ & _ & _ & Heq).
      by rewrite Heq. }
  split; [exact Hstep|].
  apply (reachable_ind newDate (fun db => marks_imply_reviewed (submissions db)));
    [|exact Hstep].
  intros i s Hs. simpl in Hs. by rewrite lookup_empty in Hs.
Qed.

Lemma marks_only_on_reviewed_witness :
  grade (mkSubmission 1 7 "42" 10 false None None) = None
  /\ feedback (mkSubmission 1 7 "42" 10 false None None) = None.
Proof.
  exact (proj1 (marks_only_on_reviewed (fun _ => None))
           (GetMySubmissions (mkUser 7 "student")) answered_quiz
           ltac:(intros i s Hs _; vm_compute in Hs;
                 destruct i as [|[]]; try discriminate Hs;
                 by injection Hs as <-)
           0%N (mkSubmission 1 7 "42" 10 false None None) eq_refl eq_refl).
Defined.

(** ** Creating, editing and deleting an assignment *)

(** [deleteAssignment] answers 404 for a missing assignment, 403 for one of
    another teacher and 400 for one that has left Draft, and changes
    nothing in these cases; the owner's delete of a draft removes that
    document and no other, leaves the submissions alone, and afterwards
    the assignment is not found, neither by [getAssignment] nor by a
    second delete. *)
Theorem deleteAssignment_outcome user id db :
  let r := deleteAssignment user id db in
  (assignments db !! id = None -> r = (reject 404 "Assignment not found", db))
  /\ (forall a, assignments db !! id = Some a ->
        (createdBy a <> userId user ->
           r = (reject 403 "Not authorized to delete this assignment", db))
        /\ (createdBy a = userId user -> status a <> Draft ->
              r = (reject 400 "Can only delete assignments in Draft status", db))
        /\ (createdBy a = userId user -> status a = Draft ->
              r.1 = Sent 200 true (Some "Assignment deleted successfully") None
              /\ assignments r.2 !! id = None
              /\ (forall j, j <> id -> assignments r.2 !! j = assignments db !! j)
              /\ submissions r.2 = submissions db
              /\ (forall u, getAssignment u id r.2
                            = (reject 404 "Assignment not found", r.2))
              /\ (forall u, deleteAssignment u id r.2
                            = (reject 404 "Assignment not found", r.2)))).
Proof.
  intros r. subst r. unfold deleteAssignment. split.
  - by intros ->.
  - intros a ->. split; [|split].
    + intros Ho. by rewrite (proj2 (N.eqb_neq _ _) Ho).
    + intros Ho Hs. rewrite (proj2 (N.eqb_eq _ _) Ho). simpl.
      by rewrite bool_decide_eq_false_2.
    + intros Ho Hs. rewrite (proj2 (N.eqb_eq _ _) Ho). simpl.
      rewrite bool_decide_eq_true_2 by done. simpl.
      split; [done|]. split; [apply lookup_delete_eq|].
      split; [intros j Hj; by apply lookup_delete_ne|]. split; [done|].
      unfold getAssignment. simpl. by rewrite lookup_delete_eq.
Qed.

Lemma deleteAssignment_outcome_witness :
  (deleteAssignment (mkUser 1 "teacher") 0 draft_of_1).1
    = Sent 200 true (Some "Assignment deleted successfully") None
  /\ assignments (deleteAssignment (mkUser 1 "teacher") 0 draft_of_1).2 !! 0%N = None.
Proof.
  destruct (proj2 (deleteAssignment_outcome (mkUser 1 "teacher") 0 draft_of_1)
              (mkAssignment "Essay" "Write it" 1000 Draft 1 5) eq_refl)
    as (_ & _ & H).
  destruct (H eq_refl eq_refl) as (H1 & H2 & _). split; [exact H1|exact H2].
Defined.

(** [createAssignment] answers 400 and stores nothing when title,
    description or dueDate is absent or empty, and throws without storing
    anything when the dueDate does not parse; otherwise it stores, under an
    id that was free, a Draft of the caller with the given texts, keeps
    every earlier assignment, and a caller who is a teacher gets the new
    assignment back from [getAssignment] while a student is refused. *)
Theorem createAssignment_outcome (newDate : string -> option Z) user body now db :
  let r := createAssignment newDate user body now db in
  ((supplied (body_title body) = None \/ supplied (body_description body) = None
    \/ supplied (body_dueDate body) = None) ->
   r = (reject 400 "Please provide title, description, and due date", db))
  /\ (forall t d due,
        supplied (body_title body) = Some t ->
        supplied (body_description body) = Some d ->
        supplied (body_dueDate body) = Some due ->
        (newDate due = None -> r = (Thrown, db))
        /\ (forall due', newDate due = Some due' ->
              let id := new_id (assignments db) in
              let a := mkAssignment t d due' Draft (userId user) now in
              r.1 = Sent 201 true (Some "Assignment created successfully") (Some (id, a))
              /\ assignments db !! id = None
              /\ assignments r.2 !! id = Some a
              /\ (forall j a0, assignments db !! j = Some a0 ->
                               assignments r.2 !! j = Some a0)
              /\ submissions r.2 = submissions db
              /\ (role user = "teacher" ->
                  getAssignment user id r.2 = (Sent 200 true None (Some (id, a)), r.2))
              /\ (forall u, role u = "student" ->
                  getAssignment u id r.2 = (reject 403 "Assignment not available", r.2)))).
Proof.
  intros r. subst r. unfold createAssignment. split.
  - intros [->|[->| ->]]; [done| |].
    + by destruct (supplied (body_title body)).
    + by destruct (supplied (body_title body)), (supplied (body_description body)).
  - intros t d due -> -> ->. split; [by intros ->|].
    intros due' ->. simpl. split; [done|]. split; [apply new_id_fresh|].
    split; [apply lookup_insert_eq|]. split; [|split; [done|split]].
    + intros j a0 Hj. rewrite lookup_insert_ne; [done|].
      intros <-. by rewrite new_id_fresh in Hj.
    + intros Hrole. unfold getAssignment. simpl. rewrite lookup_insert_eq, Hrole. simpl.
      by rewrite N.eqb_refl.
    + intros u Hrole. unfold getAssignment. simpl. by rewrite lookup_insert_eq, Hrole.
Qed.

Lemma createAssignment_outcome_witness :
  createAssignment (fun _ => None) (mkUser 1 "teacher")
    (mkAssignmentBody (Some "Quiz") (Some "") (Some "2030-01-01")) 5 draft_of_1
  = (reject 400 "Please provide title, description, and due date", draft_of_1).
Proof.
  apply (proj1 (createAssignment_outcome (fun _ => None) (mkUser 1 "teacher")
                  (mkAssignmentBody (Some "Quiz") (Some "") (Some "2030-01-01"))
                  5 draft_of_1)).
  right. left. reflexivity.
Defined.

(** [updateAssignment] answers 404 for a missing assignment, 403 for one of
    another teacher and 400 for one that has left Draft, and changes
    nothing in these cases.  For the owner of a draft, a dueDate that does
    not parse makes the request throw and nothing is stored, not even a
    title or description supplied with it; and a body in which every field
    is absent or empty is answered 200 with the assignment as it was. *)
Theorem updateAssignment_outcome (newDate : string -> option Z) user id body db :
  let r := updateAssignment newDate user id body db in
  (assignments db !! id = None -> r = (reject 404 "Assignment not found", db))
  /\ (forall a, assignments db !! id = Some a ->
        (createdBy a <> userId user ->
           r = (reject 403 "Not authorized to update this assignment", db))
        /\ (createdBy a = userId user -> status a <> Draft ->
              r = (reject 400 "Can only edit assignments in Draft status", db))
        /\ (createdBy a = userId user -> status a = Draft ->
              (forall due, supplied (body_dueDate body) = Some due ->
                           newDate due = None -> r = (Thrown, db))
              /\ (supplied (body_title body) = None ->
                  supplied (body_description body) = None ->
                  supplied (body_dueDate body) = None ->
                  r = (Sent 200 true (Some "Assignment updated successfully")
                         (Some (id, a)), db)))).
Proof.
  intros r. subst r. unfold updateAssignment. split.
  - by intros ->.
  - intros a Ha. rewrite Ha. split; [|split].
    + intros Ho. by rewrite (proj2 (N.eqb_neq _ _) Ho).
    + intros Ho Hs. rewrite (proj2 (N.eqb_eq _ _) Ho). simpl.
      by rewrite bool_decide_eq_false_2.
    + intros Ho Hs. rewrite (proj2 (N.eqb_eq _ _) Ho). simpl.
      rewrite bool_decide_eq_true_2 by done. simpl. split.
      * by intros due -> ->.
      * intros -> -> ->. rewrite insert_id by done. by destruct db.
Qed.

Lemma updateAssignment_outcome_witness :
  updateAssignment (fun _ => None) (mkUser 1 "teacher") 0
    (mkAssignmentBody (Some "Report") None (Some "tomorrow")) draft_of_1
  = (Thrown, draft_of_1).
Proof.
  destruct (proj2 (updateAssignment_outcome (fun _ => None) (mkUser 1 "teacher") 0
                     (mkAssignmentBody (Some "Report") None (Some "tomorrow")) draft_of_1)
              (mkAssignment "Essay" "Write it" 1000 Draft 1 5) eq_refl)
    as (_ & _ & H).
  exact (proj1 (H eq_refl eq_refl) "tomorrow" eq_refl eq_refl).
Defined.

(** Only the three status names, spelled exactly, are targets: for any
    other value of [status], absent and empty included, the answer is the
    400 of the validation and nothing changes, whatever the id and the
    caller; and a request for the target Draft never succeeds. *)
Theorem updateAssignmentStatus_target user id target db :
  let r := updateAssignmentStatus user id target db in
  ((forall s, target <> Some (status_name s)) ->
   r = (reject 400 "Please provide a valid status (Draft, Published, Completed)", db))
  /\ (target = Some "Draft" -> r.2 = db /\ forall m d, r.1 <> Sent 200 true m d).
Proof.
  intros r. subst r. split.
  - intros Hnone. unfold updateAssignmentStatus.
    destruct (supplied target) as [v|] eqn:Hv; [|done].
    destruct (status_of_string v) as [s|] eqn:Hs; [|done].
    apply supplied_Some in Hv as [-> _].
    apply status_of_string_name in Hs as ->. by destruct (Hnone s).
  - intros ->.
    destruct (updateAssignmentStatus_effect user id (Some "Draft") db)
      as [H|(a & to & _ & _ & Ht & Hto & _)]; [done|].
    apply transition_allowed_rank in Ht as (Hd & _).
    destruct to; simplify_eq.
Qed.

Lemma updateAssignmentStatus_target_witness :
  updateAssignmentStatus (mkUser 1 "teacher") 0 (Some "published") draft_of_1
  = (reject 400 "Please provide a valid status (Draft, Published, Completed)", draft_of_1).
Proof.
  apply (proj1 (updateAssignmentStatus_target (mkUser 1 "teacher") 0
                  (Some "published") draft_of_1)).
  intros []; discriminate.
Defined.

(** ** Listing and reading agree *)

(** Whatever the role of the caller, every assignment that [getAssignments]
    lists for them is one that [getAssignment] gives them, with the same
    content; and an assignment that [getAssignment] gives them passes the
    role filter of the listing. *)
Theorem listed_assignments_can_be_read user q db :
  (forall m data d,
     (getAssignments user q db).1 = Sent 200 true m (Some data) -> d ∈ data ->
     getAssignment user d.1 db = (Sent 200 true None (Some d), db))
  /\ (forall id m d,
        (getAssignment user id db).1 = Sent 200 true m (Some d) ->
        d.1 = id /\ assignments db !! id = Some d.2
        /\ matches (list_filter user (mkListQuery None (query_page q) (query_limit q))) d
           = true).
Proof.
  split.
  - intros m data [id a] Hr Hd.
    destruct (getAssignments_data _ _ _ _ _ _ Hr Hd) as [Ha Hm]. simpl in Ha.
    unfold getAssignment. simpl. rewrite Ha.
    unfold list_filter in Hm.
    destruct (String.eqb (role user) "student") eqn:Hstudent.
    + apply matches_status in Hm. simpl in Hm.
      rewrite bool_decide_eq_true_2 by done. simpl.
      apply String.eqb_eq in Hstudent. by rewrite Hstudent.
    + simpl. destruct (String.eqb (role user) "teacher"); [|done].
      assert (createdBy a = userId user) as ->; [|by rewrite N.eqb_refl].
      destruct (query_status q) as [v|]; [|by apply matches_createdBy in Hm].
      destruct (negb (v =? "")%string); [|by apply matches_createdBy in Hm].
      destruct (status_of_string v); by apply matches_createdBy in Hm.
  - intros id m d. unfold getAssignment.
    destruct (assignments db !! id) as [a|] eqn:Ha; [|done].
    unfold list_filter, matches. simpl.
    destruct (String.eqb (role user) "student"); simpl.
    + destruct (decide (status a = Published)) as [Hs|Hs];
        [rewrite !bool_decide_eq_true_2 by done|by rewrite bool_decide_eq_false_2].
      simpl. destruct (String.eqb (role user) "teacher"); simpl.
      * destruct (N.eqb_spec (createdBy a) (userId user)); [|done].
        intros [= <- <-]. simpl. by rewrite bool_decide_eq_true_2.
      * intros [= <- <-]. simpl. by rewrite bool_decide_eq_true_2.
    + destruct (String.eqb (role user) "teacher"); simpl.
      * destruct (N.eqb_spec (createdBy a) (userId user)) as [Ho|]; [|done].
        intros [= <- <-]. simpl. by rewrite (proj2 (N.eqb_eq _ _) Ho).
      * by intros [= <- <-].
Qed.

Lemma listed_assignments_can_be_read_witness :
  getAssignment (mkUser 7 "student") 2 three_assignments
  = (Sent 200 true None (Some (2%N, mkAssignment "Lab" "Run it" 3000 Published 2 7)),
     three_assignments).
Proof.
  exact (proj1 (listed_assignments_can_be_read (mkUser 7 "student")
                  (mkListQuery None None None) three_assignments)
           None _ (2%N, mkAssignment "Lab" "Run it" 3000 Published 2 7) eq_refl
           (list_elem_of_here _ _)).
Defined.

(** ** Sorted pages and lists *)



Lemma latest_first_transitive : Transitive latest_first.
Proof. intros x y z. unfold latest_first. lia. Qed.

Lemma latest_first_total : Total latest_first.
Proof. intros x y. unfold latest_first. lia. Qed.


Lemma NoDup_fst_sorted_find {A} (R : relation (N * A)) `{!RelDecision R}
    (p : N * A -> bool) (m : gmap N A) :
  NoDup (fst <$> merge_sort R (find p m)).
Proof. rewrite merge_sort_Permutation. apply NoDup_find_ids. Qed.



(** ** Listing submissions *)

Lemma sorted_submissions (p : N * Submission -> bool) (m : gmap N Submission) :
  let data := merge_sort latest_first (find p m) in
  (forall d, d ∈ data <-> m !! d.1 = Some d.2 /\ p d = true)
  /\ NoDup (fst <$> data)
  /\ StronglySorted latest_first data.
Proof.
  pose proof latest_first_transitive. pose proof latest_first_total.
  split; [|split].
  - intros d. by rewrite merge_sort_Permutation, elem_of_find.
  - apply (NoDup_fst_sorted_find latest_first).
  - apply StronglySorted_merge_sort; apply _.
Qed.

Lemma NoDup_by_pair (key : Submission -> N) (data : list (N * Submission))
    (m : gmap N Submission) :
  NoDup (fst <$> data) ->
  (forall d, d ∈ data -> m !! d.1 = Some d.2) ->
  (forall i j s1 s2, m !! i = Some s1 -> m !! j = Some s2 ->
                     (i, s1) ∈ data -> (j, s2) ∈ data -> key s1 = key s2 -> i = j) ->
  NoDup ((key ∘ snd) <$> data).
Proof.
  intros Hnd Hm Hkey. apply NoDup_fmap_2_strong; [|by apply NoDup_fmap_1 in Hnd].
  intros [i s1] [j s2] H1 H2 Heq. simpl in Heq.
  pose proof (Hm _ H1) as Hi. pose proof (Hm _ H2) as Hj. simpl in Hi, Hj.
  assert (i = j) as -> by by eapply Hkey. congruence.
Qed.

(** [getSubmissionsByAssignment] answers 404 for a missing assignment and
    403 for one of another teacher; to the owner it returns exactly the
    submissions to that assignment, each once, latest first; when the
    collection has one submission for a pair at most, no student appears
    twice; and the list has as many elements as the row of the assignment
    in the owner's analytics counts. *)
Theorem getSubmissionsByAssignment_outcome user aid db :
  let r := getSubmissionsByAssignment user aid db in
  (assignments db !! aid = None -> r = (reject 404 "Assignment not found", db))
  /\ (forall a, assignments db !! aid = Some a ->
        (createdBy a <> userId user ->
           r = (reject 403 "Not authorized to view submissions for this assignment", db))
        /\ (createdBy a = userId user ->
            exists data,
              r = (Sent 200 true None (Some data), db)
              /\ (forall d, d ∈ data <->
                            submissions db !! d.1 = Some d.2 /\ assignmentId d.2 = aid)
              /\ NoDup (fst <$> data)
              /\ StronglySorted latest_first data
              /\ (one_per_pair (submissions db) ->
                  NoDup ((studentId ∘ snd) <$> data))
              /\ (forall report row,
                    getAnalytics user db = (Sent 200 true None (Some report), db) ->
                    row ∈ assignmentAnalytics report -> row_assignmentId row = aid ->
                    totalSubmissions row = Z.of_nat (length data)))).
Proof.
  intros r. subst r. unfold getSubmissionsByAssignment. split; [by intros ->|].
  intros a ->. split.
  - intros Ho. by rewrite (proj2 (N.eqb_neq _ _) Ho).
  - intros Ho. rewrite (proj2 (N.eqb_eq _ _) Ho). simpl.
    eexists. split; [done|].
    destruct (sorted_submissions (fun d => (assignmentId d.2 =? aid)%N) (submissions db))
      as (Hin & Hnd & Hsorted).
    assert (forall d, d ∈ merge_sort latest_first
                          (find (fun d => (assignmentId d.2 =? aid)%N) (submissions db))
                      <-> submissions db !! d.1 = Some d.2 /\ assignmentId d.2 = aid)
      as Hin'.
    { intros d. by rewrite Hin, N.eqb_eq. }
    split; [exact Hin'|]. split; [done|]. split; [done|]. split.
    + intros Hone. apply (NoDup_by_pair studentId _ (submissions db)); [done| |].
      * intros d Hd. by apply Hin'.
      * intros i j s1 s2 Hi Hj [_ H1]%Hin' [_ H2]%Hin' Hst. simpl in *.
        apply (Hone i j s1 s2); congruence.
    + intros report row Hrep Hrow <-.
      rewrite getAnalytics_rows in Hrep. injection Hrep as <-.
      cbn [assignmentAnalytics] in Hrow.
      apply getAnalytics_row_of in Hrow as (a' & _ & ->). simpl.
      unfold submitted_to. by rewrite length_fmap, merge_sort_Permutation.
Qed.

Lemma getSubmissionsByAssignment_outcome_witness :
  exists data,
    getSubmissionsByAssignment (mkUser 1 "teacher") 1 answered_quiz
    = (Sent 200 true None (Some data), answered_quiz)
    /\ NoDup (fst <$> data).
Proof.
  destruct (proj2 (proj2 (getSubmissionsByAssignment_outcome (mkUser 1 "teacher") 1
                            answered_quiz)
                     (mkAssignment "Quiz" "Answer it" 2000 Published 1 6) eq_refl)
              eq_refl) as (data & Hr & _ & Hnd & _).
  by exists data.
Defined.

(** [getMySubmissions] returns exactly the submissions of the caller, each
    once, latest first, and none of another student; when the collection
    has one submission for a pair at most, no assignment appears twice. *)
Theorem getMySubmissions_outcome user db :
  exists data,
    getMySubmissions user db = (Sent 200 true None (Some data), db)
    /\ (forall d, d ∈ data <->
                  submissions db !! d.1 = Some d.2 /\ studentId d.2 = userId user)
    /\ NoDup (fst <$> data)
    /\ StronglySorted latest_first data
    /\ (one_per_pair (submissions db) -> NoDup ((assignmentId ∘ snd) <$> data)).
Proof.
  unfold getMySubmissions. eexists. split; [done|].
  destruct (sorted_submissions (fun d => (studentId d.2 =? userId user)%N) (submissions db))
    as (Hin & Hnd & Hsorted).
  assert (forall d, d ∈ merge_sort latest_first
                        (find (fun d => (studentId d.2 =? userId user)%N) (submissions db))
                    <-> submissions db !! d.1 = Some d.2 /\ studentId d.2 = userId user)
    as Hin'.
  { intros d. by rewrite Hin, N.eqb_eq. }
  split; [exact Hin'|]. split; [done|]. split; [done|].
  intros Hone. apply (NoDup_by_pair assignmentId _ (submissions db)); [done| |].
  - intros d Hd. by apply Hin'.
  - intros i j s1 s2 Hi Hj [_ H1]%Hin' [_ H2]%Hin' Hst. simpl in *.
    apply (Hone i j s1 s2); congruence.
Qed.

Lemma one_per_pair_singleton i s : one_per_pair {[ i := s ]}.
Proof.
  intros j k s1 s2 [-> _]%lookup_singleton_Some [-> _]%lookup_singleton_Some. done.
Qed.

Lemma getMySubmissions_outcome_witness :
  exists data,
    getMySubmissions (mkUser 7 "student") answered_quiz
    = (Sent 200 true None (Some data), answered_quiz)
    /\ NoDup ((assignmentId ∘ snd) <$> data).
Proof.
  destruct (getMySubmissions_outcome (mkUser 7 "student") answered_quiz)
    as (data & Hr & _ & _ & _ & Hnd).
  exists data. split; [exact Hr|].
  exact (Hnd (one_per_pair_singleton 0%N (mkSubmission 1 7 "42" 10 false None None))).
Defined.

Lemma createSubmission_success user body now db m d :
  (createSubmission user body now db).1 = Sent 201 true m (Some d) ->
  exists aid ans a,
    body_assignmentId body = Some aid
    /\ assignments db !! aid = Some a
    /\ d = (new_id (submissions db), fresh_submission aid (userId user) ans now)
    /\ (createSubmission user body now db).2
       = set_submissions (<[d.1 := d.2]> (submissions db)) db.
Proof.
  unfold createSubmission.
  destruct (body_assignmentId body) as [aid|]; [|done].
  destruct (supplied (body_answer body)) as [ans|]; [|done].
  destruct (assignments db !! aid) as [a|] eqn:Ha; [|done].
  destruct (negb _); [done|]. destruct (dueDate a <? now)%Z; [done|].
  destruct (findOne _ _); [done|].
  destruct (Submission_create _ _ _ _ _) as [[[id s] m']|] eqn:Hc; [|done].
  apply Submission_create_inv in Hc as (-> & -> & -> & _ & _).
  simpl. intros [= _ <-]. by exists aid, ans, a.
Qed.

(** A submission that [createSubmission] has accepted is found afterwards
    in the student's own list and in the list that the owner of the
    assignment gets for it. *)
Theorem created_submission_is_listed user body now db m d :
  (createSubmission user body now db).1 = Sent 201 true m (Some d) ->
  let db' := (createSubmission user body now db).2 in
  (exists data,
     getMySubmissions user db' = (Sent 200 true None (Some data), db') /\ d ∈ data)
  /\ (forall teacher a,
        assignments db !! assignmentId d.2 = Some a -> createdBy a = userId teacher ->
        exists data,
          getSubmissionsByAssignment teacher (assignmentId d.2) db'
          = (Sent 200 true None (Some data), db')
          /\ d ∈ data).
Proof.
  intros Hr db'. apply createSubmission_success in Hr as (aid & ans & a & _ & Ha & Hd & Hdb).
  subst db'. rewrite Hdb. clear Hdb.
  assert (studentId d.2 = userId user /\ assignmentId d.2 = aid) as [Hst Haid]
    by by rewrite Hd.
  split.
  - unfold getMySubmissions. eexists. split; [done|].
    apply (sorted_submissions _ _). simpl. rewrite lookup_insert_eq. split; [done|].
    by apply N.eqb_eq.
  - intros teacher a' Ha' Ho. unfold getSubmissionsByAssignment. simpl.
    rewrite Ha', (proj2 (N.eqb_eq _ _) Ho). simpl. eexists. split; [done|].
    apply (sorted_submissions _ _). simpl. rewrite lookup_insert_eq. split; [done|].
    by apply N.eqb_eq.
Qed.

Lemma created_submission_is_listed_witness :
  exists data,
    getMySubmissions (mkUser 7 "student")
      (createSubmission (mkUser 7 "student") (mkSubmissionBody (Some 1%N) (Some "42"))
         10 open_quiz).2
    = (Sent 200 true None (Some data),
       (createSubmission (mkUser 7 "student") (mkSubmissionBody (Some 1%N) (Some "42"))
          10 open_quiz).2)
    /\ (0%N, mkSubmission 1 7 "42" 10 false None None) ∈ data.
Proof.
  exact (proj1 (created_submission_is_listed (mkUser 7 "student")
                  (mkSubmissionBody (Some 1%N) (Some "42")) 10 open_quiz
                  (Some "Assignment submitted successfully")
                  (0%N, mkSubmission 1 7 "42" 10 false None None) eq_refl)).
Defined.

(** ** The overdue virtual and the due-date gate *)

(** For a Published assignment and a request with assignmentId and answer
    present, the [isOverdue] virtual read at the time of the request is
    true exactly when [createSubmission] refuses the submission as late; a
    Completed assignment is never overdue, whatever its dueDate. *)
Theorem overdue_means_submissions_refused user aid ans now db a :
  ans <> "" ->
  assignments db !! aid = Some a ->
  (status a = Published ->
   (isOverdue now a = true <->
    createSubmission user (mkSubmissionBody (Some aid) (Some ans)) now db
    = (reject 400
         "Assignment due date has passed. Submissions are no longer accepted.", db)))
  /\ (status a = Completed -> isOverdue now a = false).
Proof.
  intros Hans Ha. split.
  - intros Hs. unfold isOverdue, createSubmission. simpl.
    assert (supplied (Some ans) = Some ans) as ->.
    { unfold supplied, truthy. by destruct (String.eqb_spec ans ""). }
    rewrite Ha, Hs. simpl.
    destruct (dueDate a <? now)%Z; simpl; [done|].
    split; [done|]. repeat case_match; done.
  - intros Hs. unfold isOverdue. rewrite Hs. simpl. apply andb_false_r.
Qed.

Lemma overdue_means_submissions_refused_witness :
  isOverdue 3000 (mkAssignment "Quiz" "Answer it" 2000 Published 1 6) = true
  <-> createSubmission (mkUser 7 "student") (mkSubmissionBody (Some 1%N) (Some "42"))
        3000 open_quiz
      = (reject 400
           "Assignment due date has passed. Submissions are no longer accepted.",
         open_quiz).
Proof.
  exact (proj1 (overdue_means_submissions_refused (mkUser 7 "student") 1 "42" 3000
                  open_quiz (mkAssignment "Quiz" "Answer it" 2000 Published 1 6)
                  ltac:(discriminate) eq_refl) eq_refl).
Defined.


(** ** Bounds of the analytics *)

Lemma sumZ_reviewed_bounds (l : list Submission) :
  (0 <= sumZ (reviewed_count <$> l) <= Z.of_nat (length l))%Z.
Proof.
  induction l as [|s l IH]; [done|].
  rewrite fmap_cons, sumZ_cons, length_cons.
  assert (0 <= reviewed_count s <= 1)%Z
    by (unfold reviewed_count; destruct (reviewed s); lia).
  lia.
Qed.

Lemma sumZ_minus {A} (f g : A -> Z) (l : list A) :
  sumZ ((fun x => f x - g x)%Z <$> l) = (sumZ (f <$> l) - sumZ (g <$> l))%Z.
Proof. induction l as [|x l IH]; [done|]. rewrite !fmap_cons, !sumZ_cons, IH. lia. Qed.

(** Summing a quantity over the groups of the owned assignments is summing
    it over the matched submissions. *)
Lemma sumZ_owned_groups (f : Submission -> Z) user db :
  let owned := find (fun d => (createdBy d.2 =? userId user)%N) (assignments db) in
  let docs := snd <$> find (fun d => bool_decide (assignmentId d.2 ∈ fst <$> owned))
                        (submissions db) in
  sumZ ((fun a : N * Assignment => sumZ (f <$> members a.1 docs)) <$> owned)
  = sumZ (f <$> docs).
Proof.
  intros owned docs.
  rewrite <- (sumZ_by_group f (fst <$> owned) docs).
  - by rewrite <- list_fmap_compose.
  - apply NoDup_find_ids.
  - intros d ([i d'] & -> & Hd)%list_elem_of_fmap.
    apply elem_of_find in Hd as [_ Hd]. by apply bool_decide_eq_true in Hd.
Qed.

(** In every report of [getAnalytics] the reviewed count of a row lies
    between 0 and its total, so that no pendingReviews is negative; the
    same holds for the overview, whose pendingReviews is the sum of the
    rows' pendingReviews, and whose totalSubmissions counts exactly the
    submissions to assignments of the caller. *)
Theorem getAnalytics_bounds user db report :
  getAnalytics user db = (Sent 200 true None (Some report), db) ->
  (forall row, row ∈ assignmentAnalytics report ->
     (0 <= reviewedSubmissions row <= totalSubmissions row)%Z
     /\ (0 <= pendingReviews row)%Z)
  /\ (0 <= totalReviewed (overview report)
      <= overview_totalSubmissions (overview report))%Z
  /\ (0 <= overview_pendingReviews (overview report))%Z
  /\ overview_pendingReviews (overview report)
     = sumZ (pendingReviews <$> assignmentAnalytics report)
  /\ exists counted : list (N * Submission),
       overview_totalSubmissions (overview report) = Z.of_nat (length counted)
       /\ NoDup (fst <$> counted)
       /\ forall d, d ∈ counted <->
                    submissions db !! d.1 = Some d.2
                    /\ owns (userId user) db (assignmentId d.2).
Proof.
  rewrite getAnalytics_rows. intros [= <-].
  cbn [assignmentAnalytics overview totalReviewed overview_totalSubmissions
       overview_pendingReviews].
  set (owned := find (fun d => (createdBy d.2 =? userId user)%N) (assignments db)).
  set (counted := find (fun d => bool_decide (assignmentId d.2 ∈ fst <$> owned))
                    (submissions db)).
  pose proof (sumZ_reviewed_bounds (snd <$> counted)) as Hdocs.
  rewrite sumZ_ones. rewrite length_fmap in *.
  split; [|split; [lia|split; [lia|split]]].
  - intros row Hrow. apply getAnalytics_row_of in Hrow as (a & _ & ->). simpl.
    pose proof (sumZ_reviewed_bounds (submitted_to a.1 db)). lia.
  - pose (total := fun a : N * Assignment =>
                     sumZ ((fun _ => 1%Z) <$> members a.1 (snd <$> counted))).
    pose (rev := fun a : N * Assignment =>
                   sumZ (reviewed_count <$> members a.1 (snd <$> counted))).
    assert (pendingReviews <$> (row_of (snd <$> counted) <$> owned)
            = (fun a => total a - rev a)%Z <$> owned) as ->
      by by rewrite <- list_fmap_compose.
    rewrite (sumZ_minus total rev owned). unfold total, rev.
    rewrite !(sumZ_owned_groups _ user db). fold owned. fold counted.
    by rewrite sumZ_ones, length_fmap.
  - exists counted. split; [done|]. split; [apply NoDup_find_ids|].
    intros d. unfold counted. rewrite elem_of_find, bool_decide_eq_true.
    rewrite list_elem_of_fmap. unfold owns.
    split; intros [Hd Ho]; (split; [done|]).
    + destruct Ho as ([i a] & -> & [Ha Hc]%elem_of_find).
      exists a. split; [done|]. by apply N.eqb_eq.
    + destruct Ho as (a & Ha & Hc). exists (assignmentId d.2, a). split; [done|].
      apply elem_of_find. split; [done|]. by apply N.eqb_eq.
Qed.

Lemma getAnalytics_bounds_witness :
  (0 <= totalReviewed (mkOverview 1 1 1 0) <= overview_totalSubmissions (mkOverview 1 1 1 0))%Z.
Proof.
  exact (proj1 (proj2 (getAnalytics_bounds (mkUser 1 "teacher") zero_graded
                         (mkReport (mkOverview 1 1 1 0)
                            [mkRow 0 "Quiz" Published 2000 1 1 0 None])
                         ltac:(vm_compute; reflexivity)))).
Defined.

(** ** Repeating a review *)

(** A review that has succeeded can be repeated: the same request gets the
    same answer and leaves the database as the first one left it. *)
Theorem reviewSubmission_idempotent user id body db m d :
  (reviewSubmission user id body db).1 = Sent 200 true m d ->
  reviewSubmission user id body (reviewSubmission user id body db).2
  = reviewSubmission user id body db.
Proof.
  intros Hr.
  destruct (reviewSubmission_effect user id body db)
    as [[_ [Ht|(c & msg & Hrej)]]|(s & Hs & Hresp & Hdb)];
    [congruence|by rewrite Hrej in Hr|].
  destruct (reviewSubmission_cases user id body db)
    as [Hsame|(s0 & a & Hs0 & Ha & Ho & Hg & _)].
  { by rewrite Hsame. }
  rewrite Hs in Hs0. injection Hs0 as <-.
  rewrite (surjective_pairing (reviewSubmission user id body db)), Hresp, Hdb.
  unfold reviewSubmission at 1. simpl. rewrite lookup_insert_eq. simpl.
  rewrite Ha, (proj2 (N.eqb_eq _ _) Ho). simpl.
  assert (validate_grade (body_grade body) (reviewed_with body s)
          = Some (reviewed_with body s)) as ->.
  { unfold validate_grade, reviewed_with.
    destruct (body_grade body) as [| | |x| |]; simpl in Hg; try done.
    destruct Hg as [H0 H100]. apply Qle_bool_iff in H0, H100. by rewrite H0, H100. }
  assert (with_reviewed true
            match body_feedback body with
            | Some f => with_feedback (trim f) (reviewed_with body s)
            | None => reviewed_with body s
            end = reviewed_with body s) as ->
    by (unfold reviewed_with; by destruct (body_feedback body)).
  by rewrite insert_insert_eq.
Qed.

Lemma reviewSubmission_idempotent_witness :
  reviewSubmission (mkUser 1 "teacher") 0 (mkReviewBody (JNum 70) (Some " ok "))
    (reviewSubmission (mkUser 1 "teacher") 0 (mkReviewBody (JNum 70) (Some " ok "))
       answered_quiz).2
  = reviewSubmission (mkUser 1 "teacher") 0 (mkReviewBody (JNum 70) (Some " ok "))
      answered_quiz.
Proof.
  exact (reviewSubmission_idempotent (mkUser 1 "teacher") 0
           (mkReviewBody (JNum 70) (Some " ok ")) answered_quiz
           (Some "Submission reviewed successfully")
           (Some (0%N, mkSubmission 1 7 "42" 10 true (Some 70%Q) (Some "ok"))) eq_refl).
Defined.

(** ** Trimmed text *)

Lemma append_cons c (s t : string) : String c s +:+ t = String c (s +:+ t).
Proof. reflexivity. Qed.

Lemma append_nil_r (s : string) : s +:+ "" = s.
Proof. induction s as [|c s IH]; [done|]. by rewrite append_cons, IH. Qed.

Lemma append_assoc (s t u : string) : (s +:+ t) +:+ u = s +:+ (t +:+ u).
Proof. induction s as [|c s IH]; [done|]. by rewrite !append_cons, IH. Qed.

Lemma rev_cons c (s : string) : String.rev (String c s) = String.rev_app s (String c "").
Proof. reflexivity. Qed.

Lemma rev_app_append (s t : string) : String.rev_app s t = String.rev s +:+ t.
Proof.
  revert t. induction s as [|c s IH]; intros t; [done|].
  rewrite rev_cons. cbn [String.rev_app].
  rewrite (IH (String c t)), (IH (String c "")). by rewrite append_assoc.
Qed.

Lemma rev_append (s t : string) :
  String.rev (s +:+ t) = String.rev t +:+ String.rev s.
Proof.
  induction s as [|c s IH]; [by rewrite append_nil_r|].
  rewrite append_cons, !rev_cons, !rev_app_append, IH. by rewrite append_assoc.
Qed.

Lemma rev_involutive (s : string) : String.rev (String.rev s) = s.
Proof.
  induction s as [|c s IH]; [done|].
  by rewrite rev_cons, rev_app_append, rev_append, IH.
Qed.

Lemma trim_start_length (s : string) :
  String.length (trim_start s) <= String.length s.
Proof.
  induction s as [|c s IH]; [done|]. simpl. destruct (js_space c); simpl; lia.
Qed.

Lemma trim_start_fixed c s :
  trim_start (String c s) = String c s <-> js_space c = false.
Proof.
  simpl. destruct (js_space c); [|done]. split; [|done]. intros Heq.
  pose proof (trim_start_length s) as Hlen. rewrite Heq in Hlen. simpl in Hlen. lia.
Qed.

Lemma trim_start_idempotent (s : string) : trim_start (trim_start s) = trim_start s.
Proof.
  induction s as [|c s IH]; [done|]. simpl.
  destruct (js_space c) eqn:Hc; [done|]. simpl. by rewrite Hc.
Qed.

Lemma trim_start_suffix (s : string) : exists w, s = w +:+ trim_start s.
Proof.
  induction s as [|c s [w IH]]; [by exists ""|]. simpl.
  destruct (js_space c); [|by exists ""].
  exists (String c w). by rewrite append_cons, <- IH.
Qed.

(** Trimming the reverse of a string that starts clean leaves a string
    whose reverse starts clean. *)
Lemma trim_start_rev_clean (u : string) :
  trim_start u = u ->
  trim_start (String.rev (trim_start (String.rev u)))
  = String.rev (trim_start (String.rev u)).
Proof.
  intros Hu. destruct (trim_start_suffix (String.rev u)) as [w Hw].
  set (v := trim_start (String.rev u)) in *.
  assert (u = String.rev v +:+ String.rev w) as Hsplit.
  { by rewrite <- rev_append, <- Hw, rev_involutive. }
  destruct (String.rev v) as [|c x]; [done|].
  apply trim_start_fixed. rewrite Hsplit, append_cons in Hu.
  by apply (trim_start_fixed c (x +:+ String.rev w)).
Qed.

Lemma trim_idempotent (s : string) : trim (trim s) = trim s.
Proof.
  unfold trim.
  rewrite (trim_start_rev_clean (trim_start s) (trim_start_idempotent s)).
  by rewrite rev_involutive, trim_start_idempotent.
Qed.

(** Every request keeps the stored answers non-empty and trimmed and the
    stored feedback trimmed, so that in a reachable database no answer is
    blank and no answer or feedback has white space around it. *)
Theorem stored_text_stays_trimmed (newDate : string -> option Z) :
  (forall r db, texts_trimmed (submissions db) ->
                texts_trimmed (submissions (serve newDate r db)))
  /\ (forall db, reachable newDate db -> texts_trimmed (submissions db)).
Proof.
  assert (forall r db, texts_trimmed (submissions db) ->
                       texts_trimmed (submissions (serve newDate r db))) as Hstep.
  { intros r db Hinv i s' Hs'.
    destruct (submissions db !! i) as [s|] eqn:Hs.
    - destruct (Hinv i s Hs) as (Hne & Hans & Hfb).
      destruct (serve_submission newDate r db i s Hs)
        as [Hsame|(body & a & _ & _ & _ & _ & Hrev)].
      + rewrite Hsame in Hs'. by injection Hs' as <-.
      + rewrite Hrev in Hs'. injection Hs' as <-. simpl.
        split; [done|]. split; [done|].
        destruct (body_feedback body) as [f|]; [|done].
        intros f' [= <-]. apply trim_idempotent.
    - destruct (serve_new_submission newDate r db i s' Hs Hs')
        as (body & now & ans & a & _ & _ & _ & Htrim & _ & _ & _ & _ & Heq).
      rewrite Heq. simpl. split; [done|]. split; [apply trim_idempotent|done]. }
  split; [exact Hstep|].
  apply (reachable_ind newDate (fun db => texts_trimmed (submissions db))); [|exact Hstep].
  intros i s Hs. simpl in Hs. by rewrite lookup_empty in Hs.
Qed.

Lemma stored_text_stays_trimmed_witness :
  answer (mkSubmission 0 7 "42" 10 true (Some 0%Q) None) <> ""
  /\ trim "42" = "42".
Proof.
  destruct (proj2 (stored_text_stays_trimmed (fun _ => Some 2000%Z))
              zero_graded zero_graded_reachable 0%N
              (mkSubmission 0 7 "42" 10 true (Some 0%Q) None)
              ltac:(vm_compute; reflexivity)) as (H1 & H2 & _).
  split; [exact H1|exact H2].
Defined.
